(** * A file-backed CRUD service for items: model and properties

    Shallow embedding of [src/index.js], the HTTP backend of the item
    manager.  The server keeps a collection of items in one JSON file and
    answers five routes on it (list, get, create, update, delete), besides
    two static pages.  Every request reads the whole file, works on the
    array in memory and, when it changes it, writes the whole file back.

    What is modelled and how:
    - the disk is passed explicitly: every function that touches the file
      system takes a [disk] and returns the new one;
    - [JSON.parse] and [JSON.stringify] are built-ins, not code of the
      repository: a text is represented by what [JSON.parse] makes of it,
      either an exception or a value, and [JSON.stringify v] is a text that
      parses back to [v];
    - numbers are the integers among the IEEE 754 doubles, kept as [Z];
      where the code computes a number ([maxId + 1], [Number(digits)]) the
      result is rounded to the nearest double by [to_double];
    - the stored collection is an array of items with an integer [id] and
      string [name] and [description], which is all the server ever writes.
      Request bodies are arbitrary JSON values;
    - of the page's script ([src/unnamed/part_000]) the requests that it
      sends are modelled, not what it draws. *)

From Stdlib Require Import ZArith String Ascii Bool Lia.
From Stdlib Require Import DecimalString DecimalPos DecimalZ.
From stdpp Require Import base option list strings sorting.

Local Open Scope string_scope.
Local Open Scope Z_scope.
Local Open Scope list_scope.

(** ** JSON values *)

#[warnings="-register-all"]
Inductive json : Type :=
| JNull
| JBool (b : bool)
| JNum (n : Z)
| JStr (s : string)
| JArr (elems : list json)
| JObj (members : list (string * json)).

(** The members of an object in the order of the text.  When a key occurs
    more than once, [JSON.parse] keeps the last occurrence. *)
Fixpoint last_member (k : string) (ms : list (string * json))
    (found : option json) : option json :=
  match ms with
  | [] => found
  | (k', v) :: ms' =>
      last_member k ms' (if String.eqb k k' then Some v else found)
  end.

(** [v.k] for a value [v] other than [null] and a key that no prototype
    defines ([name], [description]): [None] is [undefined]. *)
Definition prop (v : json) (k : string) : option json :=
  match v with
  | JObj ms => last_member k ms None
  | _ => None
  end.

(** [typeof v] *)
Definition typeof (v : option json) : string :=
  match v with
  | None => "undefined"
  | Some JNull => "object"
  | Some (JBool _) => "boolean"
  | Some (JNum _) => "number"
  | Some (JStr _) => "string"
  | Some (JArr _) => "object"
  | Some (JObj _) => "object"
  end.

(** [!v] is [negb (truthy v)]. *)
Definition truthy (v : json) : bool :=
  match v with
  | JNull => false
  | JBool b => b
  | JNum n => negb (Z.eqb n 0)
  | JStr s => negb (String.eqb s "")
  | JArr _ => true
  | JObj _ => true
  end.

(** The string held by a value whose [typeof] is ["string"]. *)
Definition string_value (v : option json) : string :=
  match v with
  | Some (JStr s) => s
  | _ => ""
  end.

(** ** Numbers *)

(** [Number.MAX_SAFE_INTEGER]: up to it every integer is a double and
    adding 1 is exact. *)
Definition MAX_SAFE_INTEGER : Z := 2 ^ 53 - 1.

(** Stands for the number [Infinity]: every double that is an integer is
    below it, so it is equal to no number of a JSON text. *)
Definition Infinity : Z := 2 ^ 1024.

(** The double nearest to the integer [x], as the sum of two doubles and
    [Number] of a string of digits are rounded: 53 significant bits, a tie
    going to the even significand, and [Infinity] when the rounded value
    leaves the range. *)
Definition to_double (x : Z) : Z :=
  let a := Z.abs x in
  let shift := Z.log2 a - 52 in
  if shift <=? 0 then x
  else
    let q := Z.shiftr a shift in
    let r := a - Z.shiftl q shift in
    let half := Z.shiftl 1 (shift - 1) in
    let q' := if (half <? r) || (Z.eqb r half && Z.odd q) then q + 1 else q in
    let y := Z.shiftl q' shift in
    Z.sgn x * (if Infinity <=? y then Infinity else y).

(** ** Items and the collection *)

Module Item.
Record t : Type := mk { id : Z; name : string; description : string }.
End Item.

Abbreviation Item := Item.t.

(** The object literal [{ id, name, description }] as [JSON.stringify]
    sees it. *)
Definition item_json (i : Item) : json :=
  JObj [("id", JNum (Item.id i));
        ("name", JStr (Item.name i));
        ("description", JStr (Item.description i))].

Definition items_json (items : list Item) : json :=
  JArr (item_json <$> items).

(** ** The disk *)

(** The text of the data file, seen through [JSON.parse]. *)
Inductive file_text : Type :=
| NotJson (raw : string)          (* [JSON.parse] throws on it *)
| ItemsJson (items : list Item).  (* [JSON.parse] returns this array *)

(** The three files the server touches; [None] is a file that does not
    exist (or cannot be read, for the two pages). *)
Record disk : Type := mkDisk {
  DATA_FILE : option file_text;
  index_html : option string;
  script_js : option string
}.

(** [fs.writeFileSync(DATA_FILE, text, 'utf8')] *)
Definition writeFileSync (text : file_text) (d : disk) : disk :=
  {| DATA_FILE := Some text;
     index_html := index_html d;
     script_js := script_js d |}.

Definition ensureDataFile (d : disk) : disk :=
  match DATA_FILE d with
  | None => writeFileSync (ItemsJson []) d
  | Some _ => d
  end.

(** After [ensureDataFile] the file exists, so the last case stands for the
    [catch] branch alone. *)
Definition readItems (d : disk) : list Item * disk :=
  let d := ensureDataFile d in
  match DATA_FILE d with
  | Some (ItemsJson items) => (items, d)
  | _ => ([], writeFileSync (ItemsJson []) d)
  end.

Definition writeItems (items : list Item) (d : disk) : disk :=
  writeFileSync (ItemsJson items) d.

(** [maxId + 1] is a sum of doubles. *)
Definition getNextId (items : list Item) : Z :=
  let maxId :=
    fold_left (fun max item => if Item.id item >? max then Item.id item else max)
              items 0 in
  to_double (maxId + 1).

(** ** Requests and responses *)

(** The body of a request, as [parseRequestBody] tells the cases apart. *)
Inductive body_text : Type :=
| BodyEmpty                  (* the empty string *)
| BodyNotJson (raw : string) (* [JSON.parse] throws on it *)
| BodyJson (v : json).       (* [JSON.parse] returns [v] *)

(** A request whose target [new URL(req.url, ...)] has parsed: [pathname]
    is the path of the parsed URL; [content_type] is
    [req.headers['content-type']], [None] when the header is absent.  A
    target that [new URL] refuses makes the handler throw before it answers;
    such a request is not a [request] of the model. *)
Record request : Type := mkRequest {
  method : string;
  pathname : string;
  content_type : option string;
  body : body_text
}.

Inductive content : Type :=
| JsonContent (v : json)                    (* Content-Type: application/json *)
| FileContent (mime : string) (data : string)
| NoContent.

Record response : Type := mkResponse {
  statusCode : Z;
  payload : content
}.

Definition sendJson (statusCode : Z) (body : json) : response :=
  {| statusCode := statusCode; payload := JsonContent body |}.

(** The object literal [{ error: message }]. *)
Definition error_json (message : string) : json :=
  JObj [("error", JStr message)].

(** A promise that has settled. *)
Inductive settled (A : Type) : Type :=
| Resolved (value : A)
| Rejected (message : string).
Arguments Resolved {A} value.
Arguments Rejected {A} message.

Definition parseRequestBody (req : request) : settled json :=
  match body req with
  | BodyEmpty => Resolved JNull
  | BodyNotJson _ => Rejected "Invalid JSON"
  | BodyJson v => Resolved v
  end.

(** ** Strings: methods and paths *)

(** [toUpperCase] on the ASCII letters; HTTP methods are ASCII tokens. *)
Definition upper_ascii (c : ascii) : ascii :=
  let n := nat_of_ascii c in
  if ((97 <=? n)%nat && (n <=? 122)%nat)%bool then ascii_of_nat (n - 32) else c.

Fixpoint toUpperCase (s : string) : string :=
  match s with
  | EmptyString => EmptyString
  | String c s' => String (upper_ascii c) (toUpperCase s')
  end.

(** [s] without the prefix [p], when it starts with it. *)
Fixpoint strip_prefix (p s : string) : option string :=
  match p, s with
  | EmptyString, _ => Some s
  | String a p', String b s' =>
      if Ascii.eqb a b then strip_prefix p' s' else None
  | String _ _, EmptyString => None
  end.

(** [Number(idMatch[1])] for [idMatch = pathname.match(/^\/items\/(\d+)$/)]:
    the path is [/items/] followed by one or more decimal digits and nothing
    else; the result is the double nearest to their value.  [None] is no
    match ([id] is [null]). *)
Definition match_id (pathname : string) : option Z :=
  match strip_prefix "/items/" pathname with
  | Some digits =>
      match NilZero.uint_of_string digits with
      | Some d => Some (to_double (Z.of_uint d))
      | None => None
      end
  | None => None
  end.

(** [`${n}`] for a number [n] of at most 2^53 in absolute value: its
    decimal digits, after a minus sign when it is negative.  Beyond that
    JavaScript prints the shortest digits that round to the number, and
    from 1e21 on an exponent; these are not modelled ([None]). *)
Definition String_of_Number (n : Z) : option string :=
  if Z.abs n <=? 2 ^ 53
  then Some (NilZero.string_of_int (Z.to_int n))
  else None.

(** ** The request handler *)

(** [!body || typeof body.name !== 'string'] *)
Definition invalid_body (body : json) : bool :=
  negb (truthy body) || negb (String.eqb (typeof (prop body "name")) "string").

(** The fields both POST and PUT take from a valid body. *)
Definition body_name (body : json) : string :=
  string_value (prop body "name").

Definition body_description (body : json) : string :=
  if String.eqb (typeof (prop body "description")) "string"
  then string_value (prop body "description")
  else "".

(** [list_find P items] is the first index whose item satisfies [P],
    together with that item: [findIndex] and [items[index]] at once, and
    [None] where [find] gives [undefined] and [findIndex] gives [-1]. *)
Definition find_by_id (id : option Z) (items : list Item)
    : option (nat * Item) :=
  list_find (fun i => Some (Item.id i) = id) items.

Definition handleRequest (req : request) (d : disk) : response * disk :=
  let pathname := pathname req in
  let method := toUpperCase (method req) in
  (* Only accept JSON bodies for POST and PUT. *)
  if (String.eqb method "POST" || String.eqb method "PUT")
     && negb (bool_decide (content_type req = Some "application/json"))
  then (sendJson 415 (error_json "Content-Type must be application/json"), d)
  else
  (* Load current items from disk. *)
  let '(items, d) := readItems d in
  (* Serve static frontend files *)
  if String.eqb method "GET" && String.eqb pathname "/" then
    (match index_html d with
     | None => sendJson 500 (error_json "Failed to load index.html")
     | Some data => mkResponse 200 (FileContent "text/html" data)
     end, d)
  else if String.eqb method "GET" && String.eqb pathname "/script.js" then
    (match script_js d with
     | None => sendJson 500 (error_json "Failed to load script.js")
     | Some data => mkResponse 200 (FileContent "application/javascript" data)
     end, d)
  (* Route: GET /items *)
  else if String.eqb method "GET" && String.eqb pathname "/items" then
    (sendJson 200 (items_json items), d)
  else
  (* Match routes with an ID parameter, e.g. /items/1 *)
  let id := match_id pathname in
  let hasId := bool_decide (is_Some id) in
  (* Route: GET /items/:id *)
  if String.eqb method "GET" && hasId then
    match find_by_id id items with
    | None => (sendJson 404 (error_json "Item not found"), d)
    | Some (_, item) => (sendJson 200 (item_json item), d)
    end
  (* Route: POST /items *)
  else if String.eqb method "POST" && String.eqb pathname "/items" then
    match parseRequestBody req with
    | Rejected message => (sendJson 400 (error_json message), d)
    | Resolved body =>
        if invalid_body body then
          (sendJson 400 (error_json "Invalid request body: `name` is required"), d)
        else
          let newItem :=
            {| Item.id := getNextId items;
               Item.name := body_name body;
               Item.description := body_description body |} in
          let items := items ++ [newItem] in
          (sendJson 201 (item_json newItem), writeItems items d)
    end
  (* Route: PUT /items/:id *)
  else if String.eqb method "PUT" && hasId then
    match parseRequestBody req with
    | Rejected message => (sendJson 400 (error_json message), d)
    | Resolved body =>
        match find_by_id id items with
        | None => (sendJson 404 (error_json "Item not found"), d)
        | Some (index, old) =>
            if invalid_body body then
              (sendJson 400 (error_json "Invalid request body: `name` is required"), d)
            else
              let updated :=
                {| Item.id := Item.id old;
                   Item.name := body_name body;
                   Item.description := body_description body |} in
              let items := <[index := updated]> items in
              (sendJson 200 (item_json updated), writeItems items d)
        end
    end
  (* Route: DELETE /items/:id *)
  else if String.eqb method "DELETE" && hasId then
    match find_by_id id items with
    | None => (sendJson 404 (error_json "Item not found"), d)
    | Some (index, deleted) =>
        (sendJson 200 (item_json deleted), writeItems (delete index items) d)
    end
  else
  (* If we reach this point, the route is not recognized. *)
  (sendJson 404 (error_json "Not found"), d).

(** The server's callback: preflight requests are answered before the
    handler runs. *)
Definition server (req : request) (d : disk) : response * disk :=
  if String.eqb (toUpperCase (method req)) "OPTIONS"
  then (mkResponse 204 NoContent, d)
  else handleRequest req d.

(** ** Vocabulary of the properties *)

(** The persisted collection: what the next request will load. *)
Definition collection (d : disk) : list Item := fst (readItems d).

(** The maximum id present in a collection; [None] when it is empty. *)
Fixpoint max_id (items : list Item) : option Z :=
  match items with
  | [] => None
  | i :: rest =>
      match max_id rest with
      | None => Some (Item.id i)
      | Some m => Some (Z.max (Item.id i) m)
      end
  end.

(** The next id in the words of the specification: 1 + the maximum id
    present, or 1 if the collection is empty. *)
Definition spec_next_id (items : list Item) : Z :=
  match max_id items with
  | None => 1
  | Some m => 1 + m
  end.

(** No id is above [Number.MAX_SAFE_INTEGER]. *)
Definition safe_ids (items : list Item) : Prop :=
  Forall (fun i => Item.id i <= MAX_SAFE_INTEGER) items.

(** All ids of a collection are different. *)
Definition unique_ids (items : list Item) : Prop :=
  NoDup (Item.id <$> items).

(** The request declares a JSON body. *)
Definition json_declared (req : request) : Prop :=
  content_type req = Some "application/json".

(** The body of the request is JSON text with a string [name]. *)
Definition has_string_name (req : request) (name : string) : Prop :=
  exists b, body req = BodyJson b /\ prop b "name" = Some (JStr name).

(** A request to the create route that declares a JSON body. *)
Definition create_request (req : request) : Prop :=
  toUpperCase (method req) = "POST" /\ pathname req = "/items"
  /\ json_declared req.

(** A request to the update route for id [n]. *)
Definition update_request (req : request) (n : Z) : Prop :=
  toUpperCase (method req) = "PUT" /\ match_id (pathname req) = Some n.

(** The disk after a sequence of requests, served one after the other. *)
Fixpoint serve (reqs : list request) (d : disk) : disk :=
  match reqs with
  | [] => d
  | req :: rest => serve rest (snd (server req d))
  end.

(** All ids are at least 1, as the ids that the server assigns are. *)
Definition positive_ids (items : list Item) : Prop :=
  Forall (fun i => 1 <= Item.id i) items.

(** The ids grow along the collection. *)
Definition increasing_ids (items : list Item) : Prop :=
  StronglySorted Z.lt (Item.id <$> items).

(** A create request with the parsed body [b]. *)
Definition post (b : json) : request :=
  mkRequest "POST" "/items" (Some "application/json") (BodyJson b).

(** The five operations, by method and path. *)
Inductive operation : Type :=
| LIST | GET_ONE (id : Z) | CREATE | UPDATE (id : Z) | DELETE (id : Z).

Definition classify (req : request) : option operation :=
  let m := toUpperCase (method req) in
  let p := pathname req in
  if String.eqb m "GET" && String.eqb p "/items" then Some LIST
  else if String.eqb m "POST" && String.eqb p "/items" then Some CREATE
  else
    match match_id p with
    | Some id =>
        if String.eqb m "GET" then Some (GET_ONE id)
        else if String.eqb m "PUT" then Some (UPDATE id)
        else if String.eqb m "DELETE" then Some (DELETE id)
        else None
    | None => None
    end.

(** ** The browser client *)

(** The requests that the page's script sends with [fetch], from
    [src/unnamed/part_000].  [trim] is [String.prototype.trim], a built-in,
    taken as a parameter.  What the script does with the answer (alerts,
    redrawing the table) is not modelled. *)

Definition apiBase : string := "".

(** [fetchItems]: the request that reloads the table. *)
Definition fetchItems_fetch : request :=
  {| method := "GET";
     pathname := String.append apiBase "/items";
     content_type := None;
     body := BodyEmpty |}.

(** [createItem]: the request sent for the two input fields; [None] when
    the script alerts "Name is required" and returns without a request. *)
Definition createItem_fetch (trim : string -> string)
    (nameInput descriptionInput : string) : option request :=
  let name := trim nameInput in
  let description := trim descriptionInput in
  if String.eqb name "" then None
  else Some {| method := "POST";
               pathname := String.append apiBase "/items";
               content_type := Some "application/json";
               body := BodyJson (JObj [("name", JStr name);
                                       ("description", JStr description)]) |}.

(** [deleteItem(id)]: [confirmed] is the answer to [confirm(...)]. *)
Definition deleteItem_fetch (confirmed : bool) (id : string) : option request :=
  if negb confirmed then None
  else Some {| method := "DELETE";
               pathname := String.append (String.append apiBase "/items/") id;
               content_type := None;
               body := BodyEmpty |}.


(** ** The data file *)

Lemma ensureDataFile_exists d : is_Some (DATA_FILE (ensureDataFile d)).
Proof. unfold ensureDataFile. destruct (DATA_FILE d) eqn:E; simpl; eauto. Qed.

Lemma readItems_stored d items :
  DATA_FILE d = Some (ItemsJson items) -> readItems d = (items, d).
Proof.
  intros E. unfold readItems, ensureDataFile. rewrite E. simpl. by rewrite E.
Qed.

Lemma readItems_not_json d raw :
  DATA_FILE d = Some (NotJson raw) ->
  readItems d = ([], writeFileSync (ItemsJson []) d).
Proof.
  intros E. unfold readItems, ensureDataFile. rewrite E. simpl. by rewrite E.
Qed.

Lemma readItems_missing d :
  DATA_FILE d = None -> readItems d = ([], writeFileSync (ItemsJson []) d).
Proof. intros E. unfold readItems, ensureDataFile. by rewrite E. Qed.

(** What [readItems] leaves on the disk is the collection it returns. *)
Lemma readItems_disk d items d1 :
  readItems d = (items, d1) ->
  d1 = writeFileSync (ItemsJson items) d.
Proof.
  destruct d as [[[raw|l]|] ih sj]; intros E.
  - rewrite (readItems_not_json _ raw) in E by done. by simplify_eq.
  - rewrite (readItems_stored _ l) in E by done. by simplify_eq.
  - rewrite readItems_missing in E by done. by simplify_eq.
Qed.

Lemma readItems_writeFileSync items d :
  readItems (writeFileSync (ItemsJson items) d)
  = (items, writeFileSync (ItemsJson items) d).
Proof. by apply readItems_stored. Qed.

Lemma collection_writeItems items d : collection (writeItems items d) = items.
Proof. unfold collection, writeItems. by rewrite readItems_writeFileSync. Qed.

Lemma collection_loaded d items d1 :
  readItems d = (items, d1) -> collection d = items /\ collection d1 = items.
Proof.
  intros E. split; [unfold collection; by rewrite E|].
  rewrite (readItems_disk _ _ _ E). apply collection_writeItems.
Qed.

Lemma collection_readItems d : collection (snd (readItems d)) = collection d.
Proof.
  destruct (readItems d) as [items d1] eqn:E. simpl.
  destruct (collection_loaded _ _ _ E) as [H H1]. congruence.
Qed.

(** ** The next id *)

Lemma fold_max_id items a :
  fold_left (fun max item => if Item.id item >? max then Item.id item else max)
            items a
  = match max_id items with None => a | Some m => Z.max a m end.
Proof.
  revert a. induction items as [|i rest IH]; intros a; simpl; [done|].
  rewrite IH. destruct (max_id rest) as [m|]; destruct (Z.gtb_spec (Item.id i) a); lia.
Qed.

Example to_double_examples :
  to_double (2 ^ 53 - 1) = 2 ^ 53 - 1 /\ to_double (2 ^ 53) = 2 ^ 53
  /\ to_double (2 ^ 53 + 1) = 2 ^ 53 /\ to_double (2 ^ 53 + 2) = 2 ^ 53 + 2
  /\ to_double (2 ^ 53 + 3) = 2 ^ 53 + 4 /\ to_double (- (2 ^ 53 + 3)) = - (2 ^ 53 + 4)
  /\ to_double (2 ^ 60 + 128) = 2 ^ 60 /\ to_double (2 ^ 60 + 129) = 2 ^ 60 + 256
  /\ to_double (10 ^ 21 + 1) = 10 ^ 21 /\ to_double (10 ^ 400) = Infinity.
Proof. split_and!; vm_compute; reflexivity. Qed.

(** Rounding to a double: exact up to 2^53, and it keeps positive numbers
    positive. *)
Lemma to_double_exact x : Z.abs x <= 2 ^ 53 -> to_double x = x.
Proof.
  intros Hx. destruct (Z.eq_dec (Z.abs x) (2 ^ 53)) as [E|E].
  - destruct (Z.abs_eq_or_opp x) as [Hx'|Hx']; rewrite Hx' in E.
    + by rewrite E.
    + replace x with (- 2 ^ 53) by lia. reflexivity.
  - unfold to_double. cbn zeta.
    assert (Z.log2 (Z.abs x) - 52 <= 0) as Hs.
    { destruct (Z.eq_dec (Z.abs x) 0) as [->|Hz]; [done|].
      assert (Z.log2 (Z.abs x) < 53); [|lia].
      apply Z.log2_lt_pow2; lia. }
    destruct (Z.leb_spec (Z.log2 (Z.abs x) - 52) 0); [done|lia].
Qed.

Lemma to_double_pos x : 1 <= x -> 1 <= to_double x.
Proof.
  intros Hx. unfold to_double. cbn zeta.
  rewrite (Z.abs_eq x), (Z.sgn_pos x) by lia.
  destruct (Z.leb_spec (Z.log2 x - 52) 0) as [Hs|Hs]; [done|].
  set (shift := Z.log2 x - 52) in *.
  assert (2 ^ 52 <= Z.shiftr x shift) as Hq.
  { rewrite Z.shiftr_div_pow2 by lia.
    apply Z.div_le_lower_bound; [apply Z.pow_pos_nonneg; lia|].
    rewrite Z.mul_comm, <- Z.pow_add_r by lia.
    replace (52 + shift) with (Z.log2 x) by (unfold shift; lia).
    apply Z.log2_spec. lia. }
  match goal with |- context [if ?c then Z.shiftr x shift + 1 else _] =>
    set (q' := if c then Z.shiftr x shift + 1 else Z.shiftr x shift) end.
  assert (1 <= q') as Hq' by (unfold q'; case_match; lia).
  assert (1 <= Z.shiftl q' shift) as Hy.
  { rewrite Z.shiftl_mul_pow2 by lia.
    pose proof (Z.pow_pos_nonneg 2 shift). nia. }
  destruct (Z.leb_spec Infinity (Z.shiftl q' shift)); [|lia].
  unfold Infinity. pose proof (Z.pow_pos_nonneg 2 1024). lia.
Qed.

Lemma to_double_nonneg x : 0 <= x -> 0 <= to_double x.
Proof.
  intros Hx. destruct (Z.eq_dec x 0) as [->|Hz]; [done|].
  pose proof (to_double_pos x). lia.
Qed.

Lemma getNextId_max items :
  getNextId items
  = to_double (match max_id items with None => 1 | Some m => Z.max 0 m + 1 end).
Proof. unfold getNextId. rewrite fold_max_id. by destruct (max_id items). Qed.

(** [max_id] is the maximum: it is an id of the collection and no id of the
    collection is greater. *)
Lemma max_id_None items : max_id items = None <-> items = [].
Proof.
  destruct items as [|i rest]; simpl; [done|].
  split; [|done]. by destruct (max_id rest).
Qed.

Lemma max_id_Some items m :
  max_id items = Some m ->
  m ∈ Item.id <$> items /\ Forall (fun i => Item.id i <= m) items.
Proof.
  revert m. induction items as [|i rest IH]; intros m; simpl; [done|].
  destruct (max_id rest) as [m'|] eqn:E; intros [= <-].
  - destruct (IH m' eq_refl) as [Hin Hle]. split.
    + destruct (Z.max_spec (Item.id i) m') as [[_ ->]|[_ ->]];
        [by apply list_elem_of_further|apply list_elem_of_here].
    + constructor; [lia|]. eapply Forall_impl; [exact Hle|]. simpl. lia.
  - apply max_id_None in E as ->. split; [apply list_elem_of_here|].
    constructor; [lia|constructor].
Qed.

(** Where no id is above [MAX_SAFE_INTEGER] the sum is exact. *)
Lemma getNextId_safe items :
  safe_ids items ->
  getNextId items = match max_id items with None => 1 | Some m => Z.max 0 m + 1 end.
Proof.
  intros Hsafe. rewrite getNextId_max. apply to_double_exact.
  destruct (max_id items) as [m|] eqn:E; [|done].
  apply max_id_Some in E as [(i & -> & Hin)%list_elem_of_fmap _].
  unfold safe_ids in Hsafe. rewrite Forall_forall in Hsafe.
  specialize (Hsafe i Hin). unfold MAX_SAFE_INTEGER in Hsafe. lia.
Qed.

Lemma getNextId_above items :
  safe_ids items -> Forall (fun i => Item.id i < getNextId items) items.
Proof.
  intros Hsafe. rewrite (getNextId_safe _ Hsafe).
  destruct (max_id items) as [m|] eqn:E.
  - apply max_id_Some in E as [_ Hle]. eapply Forall_impl; [exact Hle|]. simpl. lia.
  - apply max_id_None in E as ->. constructor.
Qed.

Lemma getNextId_positive items : 1 <= getNextId items.
Proof.
  rewrite getNextId_max. apply to_double_pos. destruct (max_id items); lia.
Qed.

Lemma getNextId_fresh items :
  safe_ids items -> getNextId items ∉ Item.id <$> items.
Proof.
  intros Hsafe (i & Hid & Hin)%list_elem_of_fmap.
  pose proof (getNextId_above items Hsafe) as H.
  rewrite Forall_forall in H. specialize (H i Hin). lia.
Qed.

(** ** Body validation *)

Lemma typeof_string v :
  String.eqb (typeof v) "string" = true <-> exists s, v = Some (JStr s).
Proof.
  destruct v as [[]|]; simpl; split; try discriminate; eauto;
    intros [s E]; discriminate.
Qed.

(** A body passes the check exactly when its [name] is a string. *)
Lemma invalid_body_false b :
  invalid_body b = false <-> exists s, prop b "name" = Some (JStr s).
Proof.
  unfold invalid_body. rewrite orb_false_iff, !negb_false_iff, typeof_string.
  split; [by intros [_ H]|]. intros [s E]. split; [|eauto].
  destruct b; simpl in E; try discriminate. reflexivity.
Qed.

Lemma body_name_string b s : prop b "name" = Some (JStr s) -> body_name b = s.
Proof. unfold body_name. by intros ->. Qed.

(** ** Routes *)

Lemma match_id_not_static p n :
  match_id p = Some n -> p <> "/" /\ p <> "/script.js" /\ p <> "/items".
Proof. intros E. split_and!; intros ->; discriminate. Qed.

Lemma eqb_neq_false (a b : string) : a <> b -> String.eqb a b = false.
Proof. apply String.eqb_neq. Qed.

(** The equations of [handleRequest], one for each route. *)

Lemma handle_unsupported_media req d :
  toUpperCase (method req) = "POST" \/ toUpperCase (method req) = "PUT" ->
  content_type req <> Some "application/json" ->
  handleRequest req d
  = (sendJson 415 (error_json "Content-Type must be application/json"), d).
Proof.
  intros Hm Hc. unfold handleRequest.
  rewrite (bool_decide_eq_false_2 _ Hc). by destruct Hm as [-> | ->].
Qed.

Lemma handle_LIST req d :
  toUpperCase (method req) = "GET" -> pathname req = "/items" ->
  handleRequest req d
  = (sendJson 200 (items_json (fst (readItems d))), snd (readItems d)).
Proof.
  intros Hm Hp. unfold handleRequest. rewrite Hm, Hp. simpl.
  by destruct (readItems d).
Qed.

Lemma handle_GET_ONE req d n :
  toUpperCase (method req) = "GET" -> match_id (pathname req) = Some n ->
  handleRequest req d
  = (match find_by_id (Some n) (fst (readItems d)) with
     | None => sendJson 404 (error_json "Item not found")
     | Some (_, item) => sendJson 200 (item_json item)
     end, snd (readItems d)).
Proof.
  intros Hm Hp. destruct (match_id_not_static _ _ Hp) as (H1 & H2 & H3).
  unfold handleRequest. rewrite Hm, Hp. simpl.
  rewrite !eqb_neq_false by done.
  destruct (readItems d) as [items d1]. simpl.
  by destruct (find_by_id (Some n) items) as [[]|].
Qed.

Lemma handle_CREATE req d :
  toUpperCase (method req) = "POST" -> pathname req = "/items" ->
  json_declared req ->
  handleRequest req d
  = let '(items, d) := readItems d in
    match parseRequestBody req with
    | Rejected message => (sendJson 400 (error_json message), d)
    | Resolved body =>
        if invalid_body body then
          (sendJson 400 (error_json "Invalid request body: `name` is required"), d)
        else
          let newItem := Item.mk (getNextId items) (body_name body)
                                 (body_description body) in
          (sendJson 201 (item_json newItem), writeItems (items ++ [newItem]) d)
    end.
Proof.
  intros Hm Hp Hc. unfold handleRequest. rewrite Hm, Hp.
  rewrite (bool_decide_eq_true_2 _ Hc). simpl. reflexivity.
Qed.

Lemma handle_UPDATE req d n :
  toUpperCase (method req) = "PUT" -> match_id (pathname req) = Some n ->
  json_declared req ->
  handleRequest req d
  = let '(items, d) := readItems d in
    match parseRequestBody req with
    | Rejected message => (sendJson 400 (error_json message), d)
    | Resolved body =>
        match find_by_id (Some n) items with
        | None => (sendJson 404 (error_json "Item not found"), d)
        | Some (index, old) =>
            if invalid_body body then
              (sendJson 400 (error_json "Invalid request body: `name` is required"), d)
            else
              let updated := Item.mk (Item.id old) (body_name body)
                                     (body_description body) in
              (sendJson 200 (item_json updated),
               writeItems (<[index := updated]> items) d)
        end
    end.
Proof.
  intros Hm Hp Hc. unfold handleRequest. rewrite Hm, Hp.
  rewrite (bool_decide_eq_true_2 _ Hc). simpl. reflexivity.
Qed.

Lemma handle_DELETE req d n :
  toUpperCase (method req) = "DELETE" -> match_id (pathname req) = Some n ->
  handleRequest req d
  = let '(items, d) := readItems d in
    match find_by_id (Some n) items with
    | None => (sendJson 404 (error_json "Item not found"), d)
    | Some (index, deleted) =>
        (sendJson 200 (item_json deleted), writeItems (delete index items) d)
    end.
Proof.
  intros Hm Hp. unfold handleRequest. rewrite Hm, Hp. simpl. reflexivity.
Qed.

(** ** Looking an item up by id *)

Lemma find_by_id_None n items :
  find_by_id (Some n) items = None <-> n ∉ Item.id <$> items.
Proof.
  unfold find_by_id. rewrite list_find_None, Forall_forall. split.
  - intros H (i & -> & Hin)%list_elem_of_fmap. by apply (H i Hin).
  - intros H i Hin [= E]. apply H, list_elem_of_fmap. eauto.
Qed.

Lemma find_by_id_Some n items index item :
  find_by_id (Some n) items = Some (index, item) ->
  items !! index = Some item /\ Item.id item = n.
Proof.
  unfold find_by_id. intros (Hl & [= Hid] & _)%list_find_Some. done.
Qed.

(** ** What a request can do to the disk *)

(** Whatever the request, the handler does one of five things: it refuses
    the media type before it loads anything; it loads and writes nothing
    more; or it loads and writes the collection back with an item appended,
    replaced under its own id, or removed. *)
Lemma handleRequest_effect req d :
  let items := fst (readItems d) in
  let d1 := snd (readItems d) in
  let r := fst (handleRequest req d) in
  let d' := snd (handleRequest req d) in
  (statusCode r = 415 /\ d' = d)
  \/ d' = d1
  \/ (statusCode r = 201 /\ exists name description,
        d' = writeItems (items ++ [Item.mk (getNextId items) name description]) d1)
  \/ (statusCode r = 200 /\ exists index old name description,
        items !! index = Some old /\
        d' = writeItems (<[index := Item.mk (Item.id old) name description]> items) d1)
  \/ (statusCode r = 200 /\ exists index, d' = writeItems (delete index items) d1).
Proof.
  unfold handleRequest. destruct (readItems d) as [items d1]. simpl.
  repeat case_match; simpl; eauto 10.
  match goal with H : find_by_id _ _ = Some _ |- _ =>
    pose proof H as Hfind; unfold find_by_id in Hfind;
    apply list_find_Some in Hfind as (Hl & _ & _) end.
  do 3 right. left. split; [done|]. eauto 10.
Qed.

(** ** Creating an item *)

(** What a valid create request does, in full. *)
Lemma create_valid req d b s :
  create_request req -> body req = BodyJson b ->
  prop b "name" = Some (JStr s) ->
  let items := collection d in
  let newItem := Item.mk (getNextId items) s (body_description b) in
  handleRequest req d
  = (sendJson 201 (item_json newItem),
     writeItems (items ++ [newItem]) (snd (readItems d))).
Proof.
  intros (Hm & Hp & Hc) Hb Hn. rewrite handle_CREATE by done.
  unfold collection, parseRequestBody. rewrite Hb.
  destruct (readItems d) as [items d1]. simpl.
  assert (invalid_body b = false) as -> by (apply invalid_body_false; eauto).
  by rewrite (body_name_string _ _ Hn).
Qed.

(** Where the ids are between 0 and [MAX_SAFE_INTEGER] the next id is the
    one the specification names. *)
Lemma getNextId_spec items :
  safe_ids items -> Forall (fun i => 0 <= Item.id i) items ->
  getNextId items = spec_next_id items.
Proof.
  intros Hsafe Hpos. rewrite (getNextId_safe _ Hsafe). unfold spec_next_id.
  destruct (max_id items) as [m|] eqn:E; [|done].
  apply max_id_Some in E as [(i & -> & Hin)%list_elem_of_fmap _].
  rewrite Forall_forall in Hpos. specialize (Hpos i Hin). lia.
Qed.

(** C1: the id that a valid create returns and stores is not always 1 + the
    maximum id present.  On a store whose only id is -5 it is 1, where
    1 + the maximum is -4; on a store whose only id is 2^53 it is 2^53
    again, where 1 + the maximum is 2^53 + 1. *)
Theorem create_id_off_spec :
  let req := mkRequest "POST" "/items" (Some "application/json")
                       (BodyJson (JObj [("name", JStr "pen")])) in
  let negative := mkDisk (Some (ItemsJson [Item.mk (-5) "ink" ""])) None None in
  let large := mkDisk (Some (ItemsJson [Item.mk (2 ^ 53) "ink" ""])) None None in
  (fst (handleRequest req negative) = sendJson 201 (item_json (Item.mk 1 "pen" ""))
   /\ collection (snd (handleRequest req negative))
      = [Item.mk (-5) "ink" ""; Item.mk 1 "pen" ""]
   /\ spec_next_id (collection negative) = -4)
  /\ (fst (handleRequest req large)
      = sendJson 201 (item_json (Item.mk (2 ^ 53) "pen" ""))
      /\ collection (snd (handleRequest req large))
         = [Item.mk (2 ^ 53) "ink" ""; Item.mk (2 ^ 53) "pen" ""]
      /\ spec_next_id (collection large) = 2 ^ 53 + 1).
Proof. cbn zeta. split_and!; vm_compute; reflexivity. Qed.

(** X23: where the ids are between 0 and [MAX_SAFE_INTEGER], a valid create
    returns and stores an item whose id is 1 + the maximum id present, or 1
    if the collection is empty. *)
Theorem create_next_id_safe req d name :
  create_request req -> has_string_name req name ->
  safe_ids (collection d) ->
  Forall (fun i => 0 <= Item.id i) (collection d) ->
  exists item,
    fst (handleRequest req d) = sendJson 201 (item_json item)
    /\ collection (snd (handleRequest req d)) = collection d ++ [item]
    /\ Item.id item = spec_next_id (collection d).
Proof.
  intros Hreq (b & Hb & Hn) Hsafe Hpos.
  rewrite (create_valid req d b name Hreq Hb Hn). simpl.
  eexists. split; [reflexivity|]. split; [apply collection_writeItems|].
  simpl. by apply getNextId_spec.
Qed.

Lemma create_next_id_safe_witness :
  exists item,
    fst (handleRequest
           (mkRequest "POST" "/items" (Some "application/json")
                      (BodyJson (JObj [("name", JStr "B")])))
           (mkDisk (Some (ItemsJson [Item.mk 1 "A" "first"])) None None))
    = sendJson 201 (item_json item)
    /\ Item.id item = 2.
Proof.
  destruct (create_next_id_safe
              (mkRequest "POST" "/items" (Some "application/json")
                         (BodyJson (JObj [("name", JStr "B")])))
              (mkDisk (Some (ItemsJson [Item.mk 1 "A" "first"])) None None)
              "B") as (item & Hr & _ & Hid).
  - repeat split.
  - eexists. split; reflexivity.
  - change (safe_ids [Item.mk 1 "A" "first"]). repeat constructor. done.
  - change (Forall (fun i => 0 <= Item.id i) [Item.mk 1 "A" "first"]).
    repeat constructor. done.
  - exists item. split; [exact Hr|exact Hid].
Defined.

(** ** A corrupt data file *)

(** C3: when the data file holds text that is not JSON, loading the
    collection gives the empty collection and rewrites the file to the empty
    collection; GET /items then answers 200 with the empty array, and no
    request gets a response that differs from the one an empty store
    gives. *)
Theorem corrupt_store_is_reset d raw :
  DATA_FILE d = Some (NotJson raw) ->
  readItems d = ([], writeFileSync (ItemsJson []) d)
  /\ (forall req,
        toUpperCase (method req) = "GET" -> pathname req = "/items" ->
        handleRequest req d
        = (sendJson 200 (JArr []), writeFileSync (ItemsJson []) d))
  /\ (forall req,
        fst (handleRequest req d)
        = fst (handleRequest req (writeFileSync (ItemsJson []) d))).
Proof.
  intros E. pose proof (readItems_not_json d raw E) as Hread.
  split; [exact Hread|]. split.
  - intros req Hm Hp. rewrite handle_LIST by done. by rewrite Hread.
  - intros req. unfold handleRequest.
    rewrite Hread, readItems_writeFileSync.
    repeat case_match; reflexivity.
Qed.

Lemma corrupt_store_is_reset_witness :
  handleRequest (mkRequest "GET" "/items" None BodyEmpty)
                (mkDisk (Some (NotJson "{oops")) None None)
  = (sendJson 200 (JArr []), mkDisk (Some (ItemsJson [])) None None).
Proof.
  apply (corrupt_store_is_reset (mkDisk (Some (NotJson "{oops")) None None)
                                "{oops" eq_refl);
    reflexivity.
Defined.

(** ** Requests that fail *)

(** The ids of a collection after each of the three mutations. *)
Lemma ids_after_update (items : list Item) (index : nat) old name description :
  items !! index = Some old ->
  Item.id <$> <[index := Item.mk (Item.id old) name description]> items
  = Item.id <$> items.
Proof.
  intros Hl. rewrite list_fmap_insert. simpl.
  apply list_insert_id. by rewrite list_lookup_fmap, Hl.
Qed.

(** The collection after any request, from the collection before it. *)
Lemma collection_after req d :
  let items := collection d in
  let items' := collection (snd (handleRequest req d)) in
  let r := fst (handleRequest req d) in
  items' = items
  \/ (statusCode r = 201 /\ exists name description,
        items' = items ++ [Item.mk (getNextId items) name description])
  \/ (statusCode r = 200 /\ exists index old name description,
        items !! index = Some old /\
        items' = <[index := Item.mk (Item.id old) name description]> items)
  \/ (statusCode r = 200 /\ exists index, items' = delete index items).
Proof.
  simpl. pose proof (handleRequest_effect req d) as H. simpl in H.
  fold (collection d) in H.
  destruct H
    as [[_ ->]|[->|[[Hs (n & de & ->)]|[[Hs (i & o & n & de & Hl & ->)]|[Hs (i & ->)]]]]];
    rewrite ?collection_writeItems, ?collection_readItems; eauto 10.
Qed.

(** C2: a request answered with an error status leaves the persisted
    collection as it was, and leaves the data file itself untouched when it
    held a collection.  In particular DELETE of an id that no item has is
    answered 404, and CREATE with a body that has no [name] is answered 400,
    both without a change to the collection. *)
Theorem errors_leave_collection :
  (forall req d,
      400 <= statusCode (fst (handleRequest req d)) ->
      collection (snd (handleRequest req d)) = collection d
      /\ (forall items, DATA_FILE d = Some (ItemsJson items) ->
                        snd (handleRequest req d) = d))
  /\ (forall req d n,
        toUpperCase (method req) = "DELETE" ->
        match_id (pathname req) = Some n ->
        n ∉ Item.id <$> collection d ->
        fst (handleRequest req d) = sendJson 404 (error_json "Item not found")
        /\ collection (snd (handleRequest req d)) = collection d)
  /\ (forall req d b,
        create_request req -> body req = BodyJson b -> prop b "name" = None ->
        fst (handleRequest req d)
        = sendJson 400 (error_json "Invalid request body: `name` is required")
        /\ collection (snd (handleRequest req d)) = collection d).
Proof.
  assert (forall req d,
      400 <= statusCode (fst (handleRequest req d)) ->
      collection (snd (handleRequest req d)) = collection d
      /\ (forall items, DATA_FILE d = Some (ItemsJson items) ->
                        snd (handleRequest req d) = d)) as Hgen.
  { intros req d Hs.
    destruct (handleRequest_effect req d)
      as [[_ E]|[E|[[Hs' _]|[[Hs' _]|[Hs' _]]]]]; try lia.
    - by rewrite E.
    - rewrite E. split; [apply collection_readItems|].
      intros items0 E0. by rewrite (readItems_stored _ _ E0). }
  split; [exact Hgen|]. split.
  - intros req d n Hm Hp Hn.
    assert (fst (handleRequest req d) = sendJson 404 (error_json "Item not found"))
      as Hr.
    { rewrite (handle_DELETE _ _ n) by done. unfold collection in Hn.
      destruct (readItems d) as [items d1]. simpl in *.
      apply find_by_id_None in Hn. by rewrite Hn. }
    split; [exact Hr|]. apply Hgen. rewrite Hr. simpl. lia.
  - intros req d b (Hm & Hp & Hc) Hb Hn.
    assert (fst (handleRequest req d)
            = sendJson 400 (error_json "Invalid request body: `name` is required"))
      as Hr.
    { rewrite handle_CREATE by done. unfold parseRequestBody. rewrite Hb.
      destruct (readItems d) as [items d1].
      assert (invalid_body b = true) as ->; [|done].
      unfold invalid_body. rewrite Hn. simpl. apply orb_true_r. }
    split; [exact Hr|]. apply Hgen. rewrite Hr. simpl. lia.
Qed.

Lemma errors_leave_collection_witness :
  let d := mkDisk (Some (ItemsJson [Item.mk 1 "A" "first"])) None None in
  let req := mkRequest "DELETE" "/items/7" None BodyEmpty in
  fst (handleRequest req d) = sendJson 404 (error_json "Item not found")
  /\ snd (handleRequest req d) = d.
Proof.
  intros d req.
  destruct errors_leave_collection as (Hgen & Hdel & _).
  split.
  - apply (Hdel req d 7); [reflexivity|reflexivity|].
    change (7 ∉ [1]). by intros ?%list_elem_of_singleton.
  - destruct (Hgen req d) as [_ H]; [vm_compute; discriminate|].
    apply (H _ eq_refl).
Defined.

(** ** Unique ids *)

Lemma unique_ids_append items name description :
  safe_ids items -> unique_ids items ->
  unique_ids (items ++ [Item.mk (getNextId items) name description]).
Proof.
  unfold unique_ids. intros Hsafe Hu. rewrite fmap_app. apply NoDup_app.
  split; [done|]. split; [|apply NoDup_singleton].
  intros x Hx ->%list_elem_of_singleton. by apply (getNextId_fresh items).
Qed.

Lemma unique_ids_delete items (index : nat) :
  unique_ids items -> unique_ids (delete index items).
Proof.
  unfold unique_ids. intros Hu. rewrite list_fmap_delete.
  eapply sublist_NoDup; [exact Hu|apply sublist_delete].
Qed.

(** The ids stay all different across any request. *)
Lemma unique_ids_after req d :
  safe_ids (collection d) -> unique_ids (collection d) ->
  unique_ids (collection (snd (handleRequest req d))).
Proof.
  intros Hsafe Hu.
  destruct (collection_after req d)
    as [->|[[_ (n & de & ->)]|[[_ (i & o & n & de & Hl & ->)]|[_ (i & ->)]]]].
  - done.
  - by apply unique_ids_append.
  - unfold unique_ids. by rewrite (ids_after_update _ _ _ _ _ Hl).
  - by apply unique_ids_delete.
Qed.

(** An update request leaves the ids where they are, whatever its outcome. *)
Lemma update_keeps_ids req d n :
  toUpperCase (method req) = "PUT" -> match_id (pathname req) = Some n ->
  Item.id <$> collection (snd (handleRequest req d)) = Item.id <$> collection d.
Proof.
  intros Hm Hp.
  destruct (decide (content_type req = Some "application/json")) as [Hc|Hc].
  - rewrite (handle_UPDATE _ _ n) by done.
    destruct (readItems d) as [items d1] eqn:E.
    destruct (collection_loaded _ _ _ E) as [-> H1].
    destruct (parseRequestBody req) as [b|msg]; simpl; [|by rewrite H1].
    destruct (find_by_id (Some n) items) as [[index old]|] eqn:Hf; simpl;
      [|by rewrite H1].
    destruct (invalid_body b); simpl; [by rewrite H1|].
    rewrite collection_writeItems. apply find_by_id_Some in Hf as [Hl _].
    by apply ids_after_update.
  - by rewrite handle_unsupported_media by auto.
Qed.

(** C4: a create does not always keep the ids different.  On a store whose
    only id is 2^53, where all ids are different, a valid create stores a
    second item under the id 2^53, so that two items share an id
    afterwards. *)
Theorem create_duplicates_large_id :
  let req := mkRequest "POST" "/items" (Some "application/json")
                       (BodyJson (JObj [("name", JStr "pen")])) in
  let large := mkDisk (Some (ItemsJson [Item.mk (2 ^ 53) "ink" ""])) None None in
  unique_ids (collection large)
  /\ statusCode (fst (handleRequest req large)) = 201
  /\ collection (snd (handleRequest req large))
     = [Item.mk (2 ^ 53) "ink" ""; Item.mk (2 ^ 53) "pen" ""]
  /\ ~ unique_ids (collection (snd (handleRequest req large))).
Proof.
  cbn zeta. split_and!.
  - change (NoDup [2 ^ 53]). apply NoDup_singleton.
  - vm_compute. reflexivity.
  - vm_compute. reflexivity.
  - change (~ NoDup [2 ^ 53; 2 ^ 53]).
    intros [Hin _]%NoDup_cons. apply Hin, list_elem_of_here.
Qed.

(** X21: where no id is above [MAX_SAFE_INTEGER], the ids that are all
    different before a request are all different after it, whatever the
    request; an update moreover leaves every id in its place. *)
Theorem unique_ids_kept req d :
  safe_ids (collection d) -> unique_ids (collection d) ->
  unique_ids (collection (snd (handleRequest req d)))
  /\ (forall n,
        toUpperCase (method req) = "PUT" -> match_id (pathname req) = Some n ->
        Item.id <$> collection (snd (handleRequest req d))
        = Item.id <$> collection d).
Proof.
  intros Hsafe Hu. split; [by apply unique_ids_after|].
  intros n. apply update_keeps_ids.
Qed.

Lemma unique_ids_kept_witness :
  let d := mkDisk (Some (ItemsJson [Item.mk 1 "A" "first"; Item.mk 2 "B" ""]))
                  None None in
  let req := mkRequest "POST" "/items" (Some "application/json")
                       (BodyJson (JObj [("name", JStr "C")])) in
  unique_ids (collection d)
  /\ unique_ids (collection (snd (handleRequest req d))).
Proof.
  intros d req.
  assert (unique_ids (collection d)) as Hu.
  { change (NoDup [1; 2]). apply NoDup_cons. split.
    - by intros ?%list_elem_of_singleton.
    - apply NoDup_singleton. }
  split; [exact Hu|]. apply (unique_ids_kept req d); [|exact Hu].
  change (safe_ids [Item.mk 1 "A" "first"; Item.mk 2 "B" ""]).
  repeat constructor; done.
Defined.

(** ** Create, then fetch *)

(** The path a client builds from an id leads back to that id. *)
Lemma match_id_of_Number n text :
  0 <= n -> String_of_Number n = Some text ->
  match_id (String.append "/items/" text) = Some n.
Proof.
  intros Hn. unfold String_of_Number.
  destruct (Z.leb_spec (Z.abs n) (2 ^ 53)) as [Hle|]; [|discriminate].
  intros [= <-]. unfold match_id.
  change (strip_prefix "/items/"
            (String.append "/items/" (NilZero.string_of_int (Z.to_int n))))
    with (Some (NilZero.string_of_int (Z.to_int n))).
  destruct n as [|p|p]; [reflexivity| |lia].
  unfold Z.to_int, NilZero.string_of_int.
  rewrite NilZero.usu by apply DecimalPos.Unsigned.to_uint_nonnil.
  unfold Z.of_uint. rewrite DecimalPos.Unsigned.of_to.
  f_equal. by apply to_double_exact.
Qed.

Lemma find_by_id_appended items new :
  Item.id new ∉ Item.id <$> items ->
  find_by_id (Some (Item.id new)) (items ++ [new]) = Some (length items, new).
Proof.
  intros Hfresh. unfold find_by_id. apply list_find_Some. split_and!.
  - by rewrite lookup_app_r, Nat.sub_diag by lia.
  - reflexivity.
  - intros j y Hj Hlt [= Hid]. apply Hfresh.
    rewrite lookup_app_l in Hj by done.
    apply list_elem_of_fmap. exists y. split; [done|].
    by eapply list_elem_of_lookup_2.
Qed.

(** C5: the item fetched under the id that a create returned is not always
    the created one.  On a store whose only id is 2^53 a valid create
    returns the id 2^53, and a GET of [/items/9007199254740992] then returns
    the older item of that id, with another name. *)
Theorem create_then_get_large_id :
  let req := mkRequest "POST" "/items" (Some "application/json")
                       (BodyJson (JObj [("name", JStr "pen")])) in
  let large := mkDisk (Some (ItemsJson [Item.mk (2 ^ 53) "ink" ""])) None None in
  let get := mkRequest "GET" "/items/9007199254740992" None BodyEmpty in
  fst (handleRequest req large)
  = sendJson 201 (item_json (Item.mk (2 ^ 53) "pen" ""))
  /\ String_of_Number (2 ^ 53) = Some "9007199254740992"
  /\ fst (handleRequest get (snd (handleRequest req large)))
     = sendJson 200 (item_json (Item.mk (2 ^ 53) "ink" "")).
Proof. cbn zeta. split_and!; vm_compute; reflexivity. Qed.

(** X22: where no id is above [MAX_SAFE_INTEGER], after a valid create a
    GET of [/items/{id}] for the id that the create returned is answered
    200 with the created item: the same id, name and description; the name
    is the one of the request. *)
Theorem create_then_get_safe req d name :
  create_request req -> has_string_name req name ->
  safe_ids (collection d) ->
  exists item text,
    fst (handleRequest req d) = sendJson 201 (item_json item)
    /\ Item.name item = name
    /\ String_of_Number (Item.id item) = Some text
    /\ forall get,
         toUpperCase (method get) = "GET" ->
         pathname get = String.append "/items/" text ->
         handleRequest get (snd (handleRequest req d))
         = (sendJson 200 (item_json item), snd (handleRequest req d)).
Proof.
  intros Hreq (b & Hb & Hn) Hsafe.
  rewrite (create_valid req d b name Hreq Hb Hn). simpl.
  set (new := Item.mk (getNextId (collection d)) name (body_description b)).
  assert (1 <= Item.id new <= 2 ^ 53) as Hrange.
  { split; [apply getNextId_positive|]. cbn [new Item.id].
    rewrite (getNextId_safe _ Hsafe).
    destruct (max_id (collection d)) as [m|] eqn:E; [|done].
    apply max_id_Some in E as [(i & -> & Hin)%list_elem_of_fmap _].
    unfold safe_ids in Hsafe. rewrite Forall_forall in Hsafe.
    specialize (Hsafe i Hin). unfold MAX_SAFE_INTEGER in Hsafe. lia. }
  assert (String_of_Number (Item.id new)
          = Some (NilZero.string_of_int (Z.to_int (Item.id new)))) as Htext.
  { unfold String_of_Number.
    destruct (Z.leb_spec (Z.abs (Item.id new)) (2 ^ 53)); [done|lia]. }
  exists new, (NilZero.string_of_int (Z.to_int (Item.id new))).
  split; [done|]. split; [done|]. split; [exact Htext|].
  intros get Hm Hp.
  assert (match_id (pathname get) = Some (Item.id new)) as Hid.
  { rewrite Hp. apply match_id_of_Number; [lia|exact Htext]. }
  rewrite (handle_GET_ONE _ _ _ Hm Hid).
  unfold writeItems. rewrite readItems_writeFileSync.
  cbn [fst snd].
  rewrite (find_by_id_appended (collection d) new) by by apply getNextId_fresh.
  reflexivity.
Qed.

Lemma create_then_get_safe_witness :
  let req := mkRequest "POST" "/items" (Some "application/json")
               (BodyJson (JObj [("name", JStr "A"); ("description", JStr "first")])) in
  let d := mkDisk None None None in
  exists item,
    fst (handleRequest req d) = sendJson 201 (item_json item)
    /\ fst (handleRequest (mkRequest "GET" "/items/1" None BodyEmpty)
                          (snd (handleRequest req d)))
       = sendJson 200 (item_json item).
Proof.
  intros req d.
  destruct (create_then_get_safe req d "A") as (item & text & Hr & _ & Ht & Hget).
  - repeat split.
  - eexists. split; reflexivity.
  - change (safe_ids []). constructor.
  - exists item. split; [exact Hr|].
    destruct item as [i n de]. vm_compute in Hr.
    injection Hr as <- _ _. vm_compute in Ht. injection Ht as <-.
    rewrite Hget; reflexivity.
Defined.

(** ** Updating an item *)

(** C6, as stated, fails: a PUT for an id that no item has, with a body
    that is not JSON, is answered 400 and not 404. *)
Lemma update_absent_id_not_always_404 :
  ~ (forall req d n,
       update_request req n -> json_declared req ->
       n ∉ Item.id <$> collection d ->
       statusCode (fst (handleRequest req d)) = 404).
Proof.
  intros H.
  specialize (H (mkRequest "PUT" "/items/9" (Some "application/json")
                           (BodyNotJson "{"))
                (mkDisk (Some (ItemsJson [])) None None) 9).
  assert (400 = 404) as E; [|discriminate E].
  apply H; [by split|reflexivity|]. change (9 ∉ @nil Z). apply not_elem_of_nil.
Qed.

(** C6, amended: a PUT to [/items/{id}] with a JSON content type, for an id
    that no item has, is answered 404 when its body is empty or parses as
    JSON, whether or not that body would pass the validation of [name]; when
    its body does not parse it is answered 400 before the id is looked up.
    The collection is the same afterwards in both cases. *)
Theorem update_absent_id req d n :
  update_request req n -> json_declared req ->
  n ∉ Item.id <$> collection d ->
  fst (handleRequest req d)
  = match body req with
    | BodyNotJson _ => sendJson 400 (error_json "Invalid JSON")
    | _ => sendJson 404 (error_json "Item not found")
    end
  /\ collection (snd (handleRequest req d)) = collection d.
Proof.
  intros [Hm Hp] Hc Hn. rewrite (handle_UPDATE _ _ n) by done.
  unfold parseRequestBody.
  destruct (readItems d) as [items d1] eqn:E.
  destruct (collection_loaded _ _ _ E) as [H0 H1]. rewrite H0 in *.
  apply find_by_id_None in Hn. rewrite Hn.
  by destruct (body req).
Qed.

Lemma update_absent_id_witness :
  fst (handleRequest
         (mkRequest "PUT" "/items/9" (Some "application/json")
                    (BodyJson (JObj [("title", JStr "no name")])))
         (mkDisk (Some (ItemsJson [Item.mk 1 "A" "first"])) None None))
  = sendJson 404 (error_json "Item not found").
Proof.
  apply (update_absent_id
           (mkRequest "PUT" "/items/9" (Some "application/json")
                      (BodyJson (JObj [("title", JStr "no name")])))
           (mkDisk (Some (ItemsJson [Item.mk 1 "A" "first"])) None None) 9).
  - by split.
  - reflexivity.
  - change (9 ∉ [1]). by intros ?%list_elem_of_singleton.
Defined.

Lemma find_by_id_updated items n index old name description :
  find_by_id (Some n) items = Some (index, old) ->
  find_by_id (Some n) (<[index := Item.mk (Item.id old) name description]> items)
  = Some (index, Item.mk (Item.id old) name description).
Proof.
  unfold find_by_id. intros (Hl & Hid & Hleast)%list_find_Some.
  apply list_find_Some. split_and!.
  - apply list_lookup_insert_eq. by eapply lookup_lt_Some.
  - exact Hid.
  - intros j y Hj Hlt. rewrite list_lookup_insert_ne in Hj by lia. eauto.
Qed.

(** C9: an update request repeated on the disk that its first run left is
    answered as the first time and leaves that disk as it is: the same
    stored item and the same collection.  This holds for every request to
    the update route, the valid ones included. *)
Theorem update_idempotent req d n :
  update_request req n ->
  handleRequest req (snd (handleRequest req d)) = handleRequest req d.
Proof.
  intros [Hm Hp].
  destruct (decide (content_type req = Some "application/json")) as [Hc|Hc].
  - rewrite (handle_UPDATE req d n) by done.
    destruct (readItems d) as [items d1] eqn:E.
    pose proof (readItems_disk _ _ _ E) as ->.
    destruct (parseRequestBody req) as [b|msg] eqn:Hparse; cbn [snd].
    2: { rewrite (handle_UPDATE _ _ n) by done.
         by rewrite readItems_writeFileSync, Hparse. }
    destruct (find_by_id (Some n) items) as [[index old]|] eqn:Hf; cbn [snd].
    2: { rewrite (handle_UPDATE _ _ n) by done.
         by rewrite readItems_writeFileSync, Hparse, Hf. }
    destruct (invalid_body b) eqn:Hb; cbn [snd].
    { rewrite (handle_UPDATE _ _ n) by done.
      by rewrite readItems_writeFileSync, Hparse, Hf, Hb. }
    rewrite (handle_UPDATE _ _ n) by done.
    unfold writeItems. rewrite readItems_writeFileSync, Hparse.
    rewrite (find_by_id_updated _ _ _ _ _ _ Hf), Hb. cbn [Item.id].
    by rewrite list_insert_insert_eq.
  - by rewrite !handle_unsupported_media by auto.
Qed.

Lemma update_idempotent_witness :
  let d := mkDisk (Some (ItemsJson [Item.mk 1 "A" "first"; Item.mk 2 "B" ""]))
                  None None in
  let req := mkRequest "PUT" "/items/2" (Some "application/json")
                       (BodyJson (JObj [("name", JStr "C")])) in
  statusCode (fst (handleRequest req d)) = 200
  /\ handleRequest req (snd (handleRequest req d)) = handleRequest req d.
Proof.
  intros d req. split; [reflexivity|].
  apply (update_idempotent req d 2). by split.
Defined.

(** ** The name of a stored item *)

(** C7, as stated, fails: a create request whose [name] is the empty string
    is answered 201 and its item, with the empty name, is stored. *)
Lemma empty_name_is_stored :
  ~ (forall req d item,
       create_request req ->
       fst (handleRequest req d) = sendJson 201 (item_json item) ->
       collection (snd (handleRequest req d)) = collection d ++ [item] ->
       Item.name item <> "").
Proof.
  intros H.
  apply (H (mkRequest "POST" "/items" (Some "application/json")
                      (BodyJson (JObj [("name", JStr "")])))
           (mkDisk (Some (ItemsJson [])) None None)
           (Item.mk 1 "" ""));
    [by repeat split|reflexivity..].
Qed.

(** A parsed body that passes the check comes from JSON text. *)
Lemma valid_body_is_json req b :
  parseRequestBody req = Resolved b -> invalid_body b = false ->
  body req = BodyJson b /\ prop b "name" = Some (JStr (body_name b)).
Proof.
  unfold parseRequestBody. intros Hp Hv.
  apply invalid_body_false in Hv as [s Hs].
  rewrite (body_name_string _ _ Hs).
  destruct (body req); simplify_eq; first [done | discriminate Hs].
Qed.

(** C7, amended: the item stored by a successful create or update has as
    name the string that the request gives in [name], whatever that string
    is; the check is on the type of [name] alone, and a create request whose
    [name] is the empty string is accepted. *)
Theorem stored_name_is_request_name :
  (forall req d,
      create_request req ->
      statusCode (fst (handleRequest req d)) = 201 ->
      exists b s item,
        body req = BodyJson b /\ prop b "name" = Some (JStr s)
        /\ Item.name item = s
        /\ fst (handleRequest req d) = sendJson 201 (item_json item)
        /\ collection (snd (handleRequest req d)) = collection d ++ [item])
  /\ (forall req d n,
        update_request req n ->
        statusCode (fst (handleRequest req d)) = 200 ->
        exists b s index item,
          body req = BodyJson b /\ prop b "name" = Some (JStr s)
          /\ Item.name item = s /\ Item.id item = n
          /\ fst (handleRequest req d) = sendJson 200 (item_json item)
          /\ collection (snd (handleRequest req d)) !! index = Some item)
  /\ (forall req d,
        create_request req -> has_string_name req "" ->
        statusCode (fst (handleRequest req d)) = 201).
Proof.
  split_and!.
  - intros req d (Hm & Hp & Hc). rewrite handle_CREATE by done.
    destruct (readItems d) as [items d1] eqn:E.
    destruct (collection_loaded _ _ _ E) as [-> _].
    destruct (parseRequestBody req) as [b|msg] eqn:Hparse; [|discriminate].
    destruct (invalid_body b) eqn:Hb; [discriminate|]. intros _.
    destruct (valid_body_is_json _ _ Hparse Hb) as [Hbody Hn].
    exists b, (body_name b), (Item.mk (getNextId items) (body_name b) (body_description b)).
    split_and!; done.
  - intros req d n [Hm Hp].
    destruct (decide (content_type req = Some "application/json")) as [Hc|Hc];
      [|rewrite handle_unsupported_media by auto; discriminate].
    rewrite (handle_UPDATE _ _ n) by done.
    destruct (readItems d) as [items d1] eqn:E.
    destruct (parseRequestBody req) as [b|msg] eqn:Hparse; [|discriminate].
    destruct (find_by_id (Some n) items) as [[index old]|] eqn:Hf; [|discriminate].
    destruct (invalid_body b) eqn:Hb; [discriminate|]. intros _.
    destruct (valid_body_is_json _ _ Hparse Hb) as [Hbody Hn].
    apply find_by_id_Some in Hf as [Hl Hid].
    exists b, (body_name b), index,
      (Item.mk (Item.id old) (body_name b) (body_description b)).
    split_and!; try done. cbn [snd]. rewrite collection_writeItems.
    apply list_lookup_insert_eq. by eapply lookup_lt_Some.
  - intros req d Hreq (b & Hb & Hn).
    by rewrite (create_valid req d b "" Hreq Hb Hn).
Qed.

Lemma stored_name_is_request_name_witness :
  let req := mkRequest "POST" "/items" (Some "application/json")
                       (BodyJson (JObj [("name", JStr "")])) in
  let d := mkDisk (Some (ItemsJson [])) None None in
  statusCode (fst (handleRequest req d)) = 201
  /\ exists b s item,
       body req = BodyJson b /\ prop b "name" = Some (JStr s)
       /\ Item.name item = s
       /\ fst (handleRequest req d) = sendJson 201 (item_json item)
       /\ collection (snd (handleRequest req d)) = collection d ++ [item].
Proof.
  intros req d. destruct stored_name_is_request_name as (Hcreate & _ & Hempty).
  assert (create_request req) as Hreq by (by repeat split).
  split.
  - apply (Hempty req d Hreq). eexists. split; reflexivity.
  - apply (Hcreate req d Hreq). reflexivity.
Defined.

(** ** Fields of a created item *)

(** C10: the item that a valid create request returns and stores is the
    object with exactly the members [id], [name] and [description], in which
    [id] is the next id of the collection, [name] is the string of the body
    and [description] is the string of the body or the empty string; any
    other member of the body, an [id] included, is ignored: two bodies with
    the same [name] and [description] have the same effect. *)
Theorem create_ignores_other_fields req d b s :
  create_request req -> body req = BodyJson b ->
  prop b "name" = Some (JStr s) ->
  handleRequest req d
  = (sendJson 201 (JObj [("id", JNum (getNextId (collection d)));
                         ("name", JStr s);
                         ("description", JStr (body_description b))]),
     writeItems (collection d
                 ++ [Item.mk (getNextId (collection d)) s (body_description b)])
                (snd (readItems d)))
  /\ forall req' b',
       create_request req' -> body req' = BodyJson b' ->
       prop b' "name" = prop b "name" ->
       prop b' "description" = prop b "description" ->
       handleRequest req' d = handleRequest req d.
Proof.
  intros Hreq Hb Hn. split; [by rewrite (create_valid req d b s Hreq Hb Hn)|].
  intros req' b' Hreq' Hb' Hn' Hd'. rewrite Hn in Hn'.
  rewrite (create_valid req d b s Hreq Hb Hn).
  rewrite (create_valid req' d b' s Hreq' Hb' Hn').
  unfold body_description. by rewrite Hd'.
Qed.

Lemma create_ignores_other_fields_witness :
  handleRequest
    (mkRequest "POST" "/items" (Some "application/json")
       (BodyJson (JObj [("id", JNum 99); ("name", JStr "pen");
                        ("admin", JBool true)])))
    (mkDisk (Some (ItemsJson [Item.mk 1 "A" "first"])) None None)
  = (sendJson 201 (JObj [("id", JNum 2); ("name", JStr "pen");
                         ("description", JStr "")]),
     mkDisk (Some (ItemsJson [Item.mk 1 "A" "first"; Item.mk 2 "pen" ""]))
            None None).
Proof.
  destruct (create_ignores_other_fields
              (mkRequest "POST" "/items" (Some "application/json")
                 (BodyJson (JObj [("id", JNum 99); ("name", JStr "pen");
                                  ("admin", JBool true)])))
              (mkDisk (Some (ItemsJson [Item.mk 1 "A" "first"])) None None)
              (JObj [("id", JNum 99); ("name", JStr "pen"); ("admin", JBool true)])
              "pen") as [H _];
    [by repeat split|reflexivity|reflexivity|exact H].
Defined.

(** ** Requests that match no operation *)

(** C8, as stated, fails: a POST to a path of no operation, sent without
    the JSON content type, is answered 415 and not 404. *)
Lemma unmatched_not_always_404 :
  ~ (forall req d,
       classify req = None ->
       fst (server req d) = sendJson 404 (error_json "Not found")).
Proof.
  intros H.
  specialize (H (mkRequest "POST" "/other" None (BodyJson (JObj [])))
                (mkDisk None None None) eq_refl).
  discriminate H.
Qed.

(** C8, amended: a request whose method and path match none of the five
    operations is answered 404 with the message "Not found", whatever its
    body, unless it is an OPTIONS request (answered by the server before the
    handler), a POST or PUT without the content type [application/json]
    (answered 415 before routing), or a GET of one of the two static pages.
    It loads the collection and writes nothing more. *)
Theorem unmatched_route req d :
  classify req = None ->
  toUpperCase (method req) <> "OPTIONS" ->
  (toUpperCase (method req) = "POST" \/ toUpperCase (method req) = "PUT" ->
   json_declared req) ->
  ~ (toUpperCase (method req) = "GET"
     /\ (pathname req = "/" \/ pathname req = "/script.js")) ->
  server req d = (sendJson 404 (error_json "Not found"), snd (readItems d)).
Proof.
  intros Hc Ho Hj Hs. unfold server. rewrite (eqb_neq_false _ _ Ho).
  unfold handleRequest, json_declared, classify in *.
  destruct (readItems d) as [items d1]. cbn [snd].
  remember (toUpperCase (method req)) as m eqn:Em.
  remember (pathname req) as p eqn:Ep.
  clear Em Ep Ho.
  destruct (String.eqb_spec m "POST") as [->|HPOST].
  { rewrite (bool_decide_eq_true_2 _ (Hj (or_introl eq_refl))). simpl in *.
    destruct (String.eqb_spec p "/items"); [discriminate Hc|reflexivity]. }
  destruct (String.eqb_spec m "PUT") as [->|HPUT].
  { rewrite (bool_decide_eq_true_2 _ (Hj (or_intror eq_refl))). simpl in *.
    destruct (match_id p); [discriminate Hc|reflexivity]. }
  destruct (String.eqb_spec m "GET") as [->|HGET].
  { simpl in *.
    destruct (String.eqb_spec p "/"); [exfalso; apply Hs; auto|].
    destruct (String.eqb_spec p "/script.js"); [exfalso; apply Hs; auto|].
    destruct (String.eqb_spec p "/items"); [discriminate Hc|].
    destruct (match_id p); [discriminate Hc|reflexivity]. }
  destruct (String.eqb_spec m "DELETE") as [->|HDELETE].
  { simpl in *. destruct (match_id p); [discriminate Hc|reflexivity]. }
  simpl. reflexivity.
Qed.

Lemma unmatched_route_witness :
  server (mkRequest "PATCH" "/items/1" None (BodyJson (JObj [("name", JStr "x")])))
         (mkDisk (Some (ItemsJson [Item.mk 1 "A" "first"])) None None)
  = (sendJson 404 (error_json "Not found"),
     mkDisk (Some (ItemsJson [Item.mk 1 "A" "first"])) None None).
Proof.
  apply (unmatched_route
           (mkRequest "PATCH" "/items/1" None (BodyJson (JObj [("name", JStr "x")])))
           (mkDisk (Some (ItemsJson [Item.mk 1 "A" "first"])) None None)).
  - reflexivity.
  - discriminate.
  - intros [H|H]; discriminate H.
  - intros [H _]. discriminate H.
Defined.

(** ** The server's callback *)

(** A request either stops at the callback or goes through the handler. *)
Lemma server_collection req d :
  collection (snd (server req d)) = collection d
  \/ snd (server req d) = snd (handleRequest req d).
Proof. unfold server. destruct (String.eqb _ "OPTIONS"); auto. Qed.

(** ** The scenario of the specification *)

Example scenario_create_delete_list :
  let d0 := mkDisk None None None in
  let r1 := server (post (JObj [("name", JStr "A"); ("description", JStr "first")])) d0 in
  let r2 := server (post (JObj [("name", JStr "B")])) (snd r1) in
  let r3 := server (mkRequest "DELETE" "/items/1" None BodyEmpty) (snd r2) in
  let r4 := server (mkRequest "GET" "/items" None BodyEmpty) (snd r3) in
  fst r1 = sendJson 201 (item_json (Item.mk 1 "A" "first"))
  /\ fst r2 = sendJson 201 (item_json (Item.mk 2 "B" ""))
  /\ fst r3 = sendJson 200 (item_json (Item.mk 1 "A" "first"))
  /\ fst r4 = sendJson 200 (JArr [item_json (Item.mk 2 "B" "")]).
Proof. by repeat split. Qed.

Example match_id_examples :
  match_id "/items/12" = Some 12 /\ match_id "/items/007" = Some 7
  /\ match_id "/items/0" = Some 0 /\ match_id "/items/" = None
  /\ match_id "/items/1a" = None /\ match_id "/items/-1" = None
  /\ match_id "/items/12/" = None /\ match_id "/items" = None.
Proof. by repeat split. Qed.

(** ** The handler, case by case *)

Lemma match_id_nonneg p n : match_id p = Some n -> 0 <= n.
Proof.
  unfold match_id. destruct (strip_prefix "/items/" p); [|discriminate].
  destruct (NilZero.uint_of_string s); [|discriminate].
  intros [= <-]. apply to_double_nonneg. unfold Z.of_uint. lia.
Qed.

Lemma find_by_id_match id items index old :
  find_by_id id items = Some (index, old) -> id = Some (Item.id old).
Proof. unfold find_by_id. by intros (_ & <- & _)%list_find_Some. Qed.

(** What the handler answers and writes, with the method that leads
    there. *)
Lemma handleRequest_cases req d :
  let m := toUpperCase (method req) in
  let items := collection d in
  let d1 := snd (readItems d) in
  let r := fst (handleRequest req d) in
  let d' := snd (handleRequest req d) in
  ((m = "POST" \/ m = "PUT") /\ ~ json_declared req
   /\ statusCode r = 415 /\ d' = d)
  \/ (((m = "POST" \/ m = "PUT") -> json_declared req)
      /\ (statusCode r = 200 \/ statusCode r = 400 \/ statusCode r = 404
          \/ (statusCode r = 500 /\ m = "GET"
              /\ (pathname req = "/" \/ pathname req = "/script.js")))
      /\ d' = d1)
  \/ (m = "POST" /\ statusCode r = 201 /\ exists name description,
        d' = writeItems (items ++ [Item.mk (getNextId items) name description]) d1)
  \/ (m = "PUT" /\ statusCode r = 200 /\ exists index old name description,
        match_id (pathname req) = Some (Item.id old) /\
        find_by_id (Some (Item.id old)) items = Some (index, old) /\
        d' = writeItems (<[index := Item.mk (Item.id old) name description]> items) d1)
  \/ (m = "DELETE" /\ exists index old,
        match_id (pathname req) = Some (Item.id old) /\
        find_by_id (Some (Item.id old)) items = Some (index, old) /\
        r = sendJson 200 (item_json old) /\
        d' = writeItems (delete index items) d1).
Proof.
  unfold collection, handleRequest, json_declared.
  destruct (readItems d) as [items d1]. cbn [fst snd].
  remember (toUpperCase (method req)) as m eqn:Em. clear Em.
  destruct (String.eqb_spec m "POST") as [->|HPOST].
  { cbn [orb andb]. case_bool_decide as Hc; cbn [negb]; [|by left; auto].
    cbn -[match_id]. destruct (String.eqb (pathname req) "/items").
    - destruct (parseRequestBody req) as [b|msg];
        [|right; left; split_and!; [done|cbn; auto 10|done]].
      destruct (invalid_body b);
        [right; left; split_and!; [done|cbn; auto 10|done]|].
      do 2 right. left. cbn. eauto 10.
    - right; left; split_and!; [done|cbn; auto 10|done]. }
  destruct (String.eqb_spec m "PUT") as [->|HPUT].
  { cbn [orb andb]. case_bool_decide as Hc; cbn [negb]; [|by left; auto].
    cbn -[match_id]. case_bool_decide; cbn -[match_id];
      [|right; left; split_and!; [done|cbn; auto 10|done]].
    destruct (parseRequestBody req) as [b|msg];
      [|right; left; split_and!; [done|cbn; auto 10|done]].
    destruct (find_by_id (match_id (pathname req)) items)
      as [[index old]|] eqn:Hf;
      [|right; left; split_and!; [done|cbn; auto 10|done]].
    destruct (invalid_body b);
      [right; left; split_and!; [done|cbn; auto 10|done]|].
    pose proof (find_by_id_match _ _ _ _ Hf) as Hid. rewrite Hid in Hf.
    do 3 right. left. cbn. eauto 12. }
  assert (m = "POST" \/ m = "PUT" -> content_type req = Some "application/json")
    as Hfree by (by intros [?|?]).
  cbn [orb andb].
  destruct (String.eqb_spec m "GET") as [->|HGET].
  { cbn -[match_id]. right; left. split; [done|].
    destruct (String.eqb_spec (pathname req) "/") as [Hp|_].
    { destruct (index_html d1); cbn; auto 10. }
    destruct (String.eqb_spec (pathname req) "/script.js") as [Hp|_].
    { destruct (script_js d1); cbn; auto 10. }
    repeat case_match; (split; [cbn; auto 10|done]). }
  destruct (String.eqb_spec m "DELETE") as [->|HDELETE].
  { cbn -[match_id]. case_bool_decide; cbn -[match_id];
      [|right; left; split_and!; [done|cbn; auto 10|done]].
    destruct (find_by_id (match_id (pathname req)) items)
      as [[index old]|] eqn:Hf;
      [|right; left; split_and!; [done|cbn; auto 10|done]].
    pose proof (find_by_id_match _ _ _ _ Hf) as Hid. rewrite Hid in Hf.
    do 4 right. cbn. eauto 12. }
  cbn. right; left. split_and!; [done|cbn; auto 10|done].
Qed.

(** ** Loading the store *)

Lemma readItems_result d :
  readItems d = (collection d, writeFileSync (ItemsJson (collection d)) d).
Proof.
  unfold collection. destruct (readItems d) as [items d1] eqn:E.
  by rewrite (readItems_disk _ _ _ E).
Qed.

(** X1: loading leaves a data file that holds exactly the collection it
    returns, does not touch the two pages, and loading again returns the
    same collection and changes nothing more. *)
Theorem load_is_idempotent d :
  DATA_FILE (snd (readItems d)) = Some (ItemsJson (fst (readItems d)))
  /\ index_html (snd (readItems d)) = index_html d
  /\ script_js (snd (readItems d)) = script_js d
  /\ readItems (snd (readItems d)) = readItems d.
Proof.
  rewrite readItems_result. cbn [fst snd].
  split_and!; [reflexivity..|apply readItems_writeFileSync].
Qed.

(** X2: no request touches the two pages.  A request refused with 415, and
    an OPTIONS request, which the server answers 204 before the handler,
    leave the whole disk as it is, so that a missing or corrupt data file
    stays so; after any other request the data file exists and holds the
    collection, never text that fails to parse. *)
Theorem data_file_after_request req d :
  index_html (snd (server req d)) = index_html d
  /\ script_js (snd (server req d)) = script_js d
  /\ (statusCode (fst (server req d)) = 415
      \/ statusCode (fst (server req d)) = 204 ->
      snd (server req d) = d)
  /\ (statusCode (fst (server req d)) <> 415 ->
      statusCode (fst (server req d)) <> 204 ->
      DATA_FILE (snd (server req d))
      = Some (ItemsJson (collection (snd (server req d))))).
Proof.
  unfold server.
  destruct (String.eqb (toUpperCase (method req)) "OPTIONS"); [by split_and!|].
  assert ((statusCode (fst (handleRequest req d)) = 415
           /\ snd (handleRequest req d) = d)
          \/ (statusCode (fst (handleRequest req d)) <> 415
              /\ statusCode (fst (handleRequest req d)) <> 204
              /\ exists items,
                   snd (handleRequest req d) = writeFileSync (ItemsJson items) d))
    as [[Hs ->]|(Hs & Hs' & items & ->)].
  { pose proof (handleRequest_cases req d) as H. cbn zeta in H.
    rewrite (readItems_result d) in H. cbn [snd] in H. unfold writeItems in H.
    destruct H as [(_ & _ & Hs & ->)|[(_ & Hs & ->)|[(_ & Hs & n & de & ->)
      |[(_ & Hs & i & o & n & de & _ & _ & ->)|(_ & i & o & _ & _ & -> & ->)]]]].
    - by left.
    - right. split_and!; [..|eauto]; destruct Hs as [?|[?|[?|[? _]]]]; lia.
    - right. split_and!; [lia..|eauto].
    - right. split_and!; [lia..|eauto].
    - right. split_and!; [done..|eauto]. }
  - done.
  - split_and!; try done. by intros [?|?].
Qed.

(** ** Reading *)

(** X3: a GET request, whatever its path, only loads the store: the
    collection is the same afterwards, and the disk is untouched when the
    data file held a collection. *)
Theorem get_never_writes req d :
  toUpperCase (method req) = "GET" ->
  snd (handleRequest req d) = snd (readItems d)
  /\ collection (snd (handleRequest req d)) = collection d
  /\ (forall items, DATA_FILE d = Some (ItemsJson items) ->
                    snd (handleRequest req d) = d).
Proof.
  intros Hm.
  assert (snd (handleRequest req d) = snd (readItems d)) as E.
  { pose proof (handleRequest_cases req d) as H. cbn zeta in H. rewrite Hm in H.
    destruct H as [([?|?] & _)|[(_ & _ & ->)|[(? & _)|[(? & _)|(? & _)]]]];
      done. }
  rewrite E. split; [done|]. split; [apply collection_readItems|].
  intros items E0. by rewrite (readItems_stored _ _ E0).
Qed.

Lemma get_never_writes_witness :
  let d := mkDisk (Some (ItemsJson [Item.mk 1 "A" "first"])) None None in
  snd (handleRequest (mkRequest "GET" "/items/1" None BodyEmpty) d) = d.
Proof.
  intros d.
  destruct (get_never_writes (mkRequest "GET" "/items/1" None BodyEmpty) d)
    as (_ & _ & H); [reflexivity|].
  apply (H _ eq_refl).
Defined.

(** X4: GET [/items/{digits}], where [n] is the number that [Number] makes
    of the digits (the nearest double), is answered 200 exactly when some
    item has id [n], with the first such item of the collection, and 404
    "Item not found" otherwise. *)
Theorem get_one_answers req d n :
  toUpperCase (method req) = "GET" -> match_id (pathname req) = Some n ->
  (n ∈ Item.id <$> collection d ->
   exists index item,
     collection d !! index = Some item /\ Item.id item = n
     /\ (forall j other, collection d !! j = Some other -> (j < index)%nat ->
                         Item.id other <> n)
     /\ fst (handleRequest req d) = sendJson 200 (item_json item))
  /\ (n ∉ Item.id <$> collection d ->
      fst (handleRequest req d) = sendJson 404 (error_json "Item not found")).
Proof.
  intros Hm Hp. rewrite (handle_GET_ONE _ _ _ Hm Hp). cbn [fst].
  fold (collection d). split.
  - intros Hin.
    destruct (find_by_id (Some n) (collection d)) as [[index item]|] eqn:Hf.
    + unfold find_by_id in Hf. apply list_find_Some in Hf as (Hl & [= Hid] & Hleast).
      exists index, item. split_and!; try done.
      intros j other Hj Hlt E. apply (Hleast j other Hj Hlt). by rewrite E.
    + by apply find_by_id_None in Hf.
  - intros Hn. apply find_by_id_None in Hn. by rewrite Hn.
Qed.

Lemma get_one_answers_witness :
  fst (handleRequest (mkRequest "GET" "/items/2" None BodyEmpty)
         (mkDisk (Some (ItemsJson [Item.mk 1 "A" "first"])) None None))
  = sendJson 404 (error_json "Item not found").
Proof.
  apply (get_one_answers (mkRequest "GET" "/items/2" None BodyEmpty)
           (mkDisk (Some (ItemsJson [Item.mk 1 "A" "first"])) None None) 2);
    [reflexivity|reflexivity|].
  change (2 ∉ [1]). by intros ?%list_elem_of_singleton.
Defined.

(** ** Deleting *)

Lemma filter_all_kept (P : Item -> Prop) `{!forall x, Decision (P x)} items :
  Forall P items -> filter P items = items.
Proof.
  induction 1 as [|i rest Hi _ IH]; [done|].
  by rewrite filter_cons_True, IH.
Qed.

(** With all ids different, removing the item at an index removes the items
    of that id. *)
Lemma delete_unique items (index : nat) old :
  unique_ids items -> items !! index = Some old ->
  delete index items = filter (fun i => Item.id i <> Item.id old) items.
Proof.
  unfold unique_ids. revert index.
  induction items as [|a rest IH]; intros index Hu Hl; [done|].
  rewrite fmap_cons in Hu. apply NoDup_cons in Hu as [Ha Hu].
  destruct index as [|k]; simpl in Hl.
  - injection Hl as ->. rewrite filter_cons_False by (intros H; by apply H).
    simpl. symmetry. apply filter_all_kept, Forall_forall.
    intros i Hi E. apply Ha, list_elem_of_fmap. eauto.
  - assert (Item.id a <> Item.id old) as Hne.
    { intros E. apply Ha. rewrite E. apply list_elem_of_fmap.
      exists old. split; [done|]. by eapply list_elem_of_lookup_2. }
    rewrite filter_cons_True by done. simpl. f_equal. by apply IH.
Qed.

Lemma find_by_id_present n items :
  n ∈ Item.id <$> items ->
  exists index item, find_by_id (Some n) items = Some (index, item).
Proof.
  intros Hin. destruct (find_by_id (Some n) items) as [[index item]|] eqn:Hf.
  - eauto.
  - by apply find_by_id_None in Hf.
Qed.

(** What a DELETE of a present id does, in full. *)
Lemma delete_present req d n :
  toUpperCase (method req) = "DELETE" -> match_id (pathname req) = Some n ->
  unique_ids (collection d) -> n ∈ Item.id <$> collection d ->
  exists item,
    item ∈ collection d /\ Item.id item = n
    /\ handleRequest req d
       = (sendJson 200 (item_json item),
          writeFileSync
            (ItemsJson (filter (fun i => Item.id i <> n) (collection d))) d).
Proof.
  intros Hm Hp Hu Hin. rewrite (handle_DELETE _ _ n) by done.
  rewrite readItems_result.
  destruct (find_by_id_present _ _ Hin) as (index & item & Hf). rewrite Hf.
  apply find_by_id_Some in Hf as [Hl Hid].
  exists item. split; [by eapply list_elem_of_lookup_2|]. split; [done|].
  unfold writeItems. rewrite (delete_unique _ _ _ Hu Hl), Hid. reflexivity.
Qed.

(** X5: with all ids different, DELETE [/items/{n}] for an id that an item
    has is answered 200 with that item, and the collection afterwards is the
    one before without it: the other items stay, in their order, and no item
    has id [n] any more. *)
Theorem delete_removes_item req d n :
  toUpperCase (method req) = "DELETE" -> match_id (pathname req) = Some n ->
  unique_ids (collection d) -> n ∈ Item.id <$> collection d ->
  exists item,
    item ∈ collection d /\ Item.id item = n
    /\ fst (handleRequest req d) = sendJson 200 (item_json item)
    /\ collection (snd (handleRequest req d))
       = filter (fun i => Item.id i <> n) (collection d)
    /\ n ∉ Item.id <$> collection (snd (handleRequest req d)).
Proof.
  intros Hm Hp Hu Hin.
  destruct (delete_present req d n Hm Hp Hu Hin) as (item & Hi & Hid & ->).
  exists item. cbn [fst snd]. fold (writeItems (filter (fun i => Item.id i <> n) (collection d)) d).
  rewrite collection_writeItems. split_and!; try done.
  intros (i & -> & [Hne _]%list_elem_of_filter)%list_elem_of_fmap. by apply Hne.
Qed.

Lemma delete_removes_item_witness :
  let d := mkDisk (Some (ItemsJson [Item.mk 1 "A" "first"; Item.mk 2 "B" ""]))
                  None None in
  let req := mkRequest "DELETE" "/items/1" None BodyEmpty in
  collection (snd (handleRequest req d)) = [Item.mk 2 "B" ""].
Proof.
  intros d req.
  destruct (delete_removes_item req d 1) as (item & _ & _ & _ & H & _).
  - reflexivity.
  - reflexivity.
  - change (NoDup [1; 2]). apply NoDup_cons. split.
    + by intros ?%list_elem_of_singleton.
    + apply NoDup_singleton.
  - change (1 ∈ [1; 2]). apply list_elem_of_here.
  - rewrite H. reflexivity.
Defined.

(** X6: with all ids different, a DELETE that succeeded, when repeated, is
    answered 404 "Item not found" and changes nothing. *)
Theorem delete_twice req d n :
  toUpperCase (method req) = "DELETE" -> match_id (pathname req) = Some n ->
  unique_ids (collection d) -> n ∈ Item.id <$> collection d ->
  handleRequest req (snd (handleRequest req d))
  = (sendJson 404 (error_json "Item not found"), snd (handleRequest req d)).
Proof.
  intros Hm Hp Hu Hin.
  destruct (delete_present req d n Hm Hp Hu Hin) as (item & _ & _ & ->).
  cbn [snd]. rewrite (handle_DELETE _ _ n) by done.
  rewrite readItems_writeFileSync.
  assert (find_by_id (Some n) (filter (fun i => Item.id i <> n) (collection d))
          = None) as ->; [|done].
  apply find_by_id_None.
  intros (i & -> & [Hne _]%list_elem_of_filter)%list_elem_of_fmap. by apply Hne.
Qed.

Lemma delete_twice_witness :
  let d := mkDisk (Some (ItemsJson [Item.mk 1 "A" "first"; Item.mk 2 "B" ""]))
                  None None in
  let req := mkRequest "DELETE" "/items/1" None BodyEmpty in
  fst (handleRequest req (snd (handleRequest req d)))
  = sendJson 404 (error_json "Item not found").
Proof.
  intros d req. rewrite (delete_twice req d 1).
  - reflexivity.
  - reflexivity.
  - reflexivity.
  - change (NoDup [1; 2]). apply NoDup_cons. split.
    + by intros ?%list_elem_of_singleton.
    + apply NoDup_singleton.
  - change (1 ∈ [1; 2]). apply list_elem_of_here.
Defined.

(** ** Updating, then fetching *)

(** X7: a valid update of an id that an item has is answered 200 with the
    item made of that id, the [name] of the body and the [description] of
    the body, or the empty description when the body has no string there:
    the old description is not kept.  The item takes the place of the first
    item of that id, every other position is as before, and a GET of the id
    then returns the new item. *)
Theorem update_then_get req d n b s :
  update_request req n -> json_declared req ->
  body req = BodyJson b -> prop b "name" = Some (JStr s) ->
  n ∈ Item.id <$> collection d ->
  let updated := Item.mk n s (body_description b) in
  exists index old,
    find_by_id (Some n) (collection d) = Some (index, old)
    /\ fst (handleRequest req d) = sendJson 200 (item_json updated)
    /\ collection (snd (handleRequest req d)) = <[index := updated]> (collection d)
    /\ forall get,
         toUpperCase (method get) = "GET" -> match_id (pathname get) = Some n ->
         fst (handleRequest get (snd (handleRequest req d)))
         = sendJson 200 (item_json updated).
Proof.
  intros [Hm Hp] Hc Hb Hn Hin updated.
  destruct (find_by_id_present _ _ Hin) as (index & old & Hf).
  exists index, old. split; [done|].
  rewrite (handle_UPDATE _ _ n) by done. rewrite readItems_result.
  unfold parseRequestBody. rewrite Hb, Hf.
  assert (invalid_body b = false) as -> by (apply invalid_body_false; eauto).
  rewrite (body_name_string _ _ Hn).
  destruct (find_by_id_Some _ _ _ _ Hf) as [_ Hid]. rewrite Hid.
  fold updated. cbn [fst snd]. rewrite collection_writeItems.
  split_and!; try done.
  intros get Hgm Hgp. rewrite (handle_GET_ONE _ _ _ Hgm Hgp).
  unfold writeItems. rewrite readItems_writeFileSync. cbn [fst].
  pose proof (find_by_id_updated _ _ _ _ s (body_description b) Hf) as Hf'.
  rewrite Hid in Hf'. fold updated in Hf'. by rewrite Hf'.
Qed.

Lemma update_then_get_witness :
  let d := mkDisk (Some (ItemsJson [Item.mk 1 "A" "first"; Item.mk 2 "B" "second"]))
                  None None in
  let req := mkRequest "PUT" "/items/2" (Some "application/json")
                       (BodyJson (JObj [("name", JStr "C")])) in
  collection (snd (handleRequest req d)) = [Item.mk 1 "A" "first"; Item.mk 2 "C" ""].
Proof.
  intros d req.
  destruct (update_then_get req d 2 (JObj [("name", JStr "C")]) "C")
    as (index & old & Hf & _ & H & _).
  - by split.
  - reflexivity.
  - reflexivity.
  - reflexivity.
  - change (2 ∈ [1; 2]). apply list_elem_of_further, list_elem_of_here.
  - rewrite H. vm_compute in Hf. injection Hf as <- _. reflexivity.
Defined.

(** ** Creating, then deleting *)

Lemma delete_appended (items : list Item) new :
  delete (length items) (items ++ [new]) = items.
Proof.
  induction items as [|a rest IH]; [done|]. simpl. by rewrite IH.
Qed.

(** A valid create followed by a DELETE of the id it assigned, where no id
    is above [MAX_SAFE_INTEGER]. *)
Lemma create_then_delete req del d b s :
  create_request req -> body req = BodyJson b ->
  prop b "name" = Some (JStr s) ->
  toUpperCase (method del) = "DELETE" ->
  match_id (pathname del) = Some (getNextId (collection d)) ->
  safe_ids (collection d) ->
  handleRequest del (snd (handleRequest req d))
  = (sendJson 200 (item_json (Item.mk (getNextId (collection d)) s
                                      (body_description b))),
     snd (readItems d)).
Proof.
  intros Hreq Hb Hn Hm Hp Hsafe.
  rewrite (create_valid req d b s Hreq Hb Hn). cbn [snd].
  rewrite (handle_DELETE _ _ _ Hm Hp).
  unfold writeItems. rewrite readItems_writeFileSync.
  set (new := Item.mk (getNextId (collection d)) s (body_description b)).
  assert (find_by_id (Some (getNextId (collection d))) (collection d ++ [new])
          = Some (length (collection d), new)) as ->.
  { apply (find_by_id_appended (collection d) new). by apply getNextId_fresh. }
  rewrite delete_appended, readItems_result. reflexivity.
Qed.

(** X9: where no id is above [MAX_SAFE_INTEGER], a valid create followed by
    a DELETE of the id it assigned is answered 200 with the created item
    and brings the collection back to what it was before the create. *)
Theorem create_then_delete_restores req del d name :
  create_request req -> has_string_name req name ->
  toUpperCase (method del) = "DELETE" ->
  match_id (pathname del) = Some (getNextId (collection d)) ->
  safe_ids (collection d) ->
  exists item,
    fst (handleRequest req d) = sendJson 201 (item_json item)
    /\ fst (handleRequest del (snd (handleRequest req d)))
       = sendJson 200 (item_json item)
    /\ collection (snd (handleRequest del (snd (handleRequest req d))))
       = collection d.
Proof.
  intros Hreq (b & Hb & Hn) Hm Hp Hsafe.
  rewrite (create_then_delete req del d b name Hreq Hb Hn Hm Hp Hsafe).
  rewrite (create_valid req d b name Hreq Hb Hn). cbn [fst snd].
  eexists. split_and!; [reflexivity..|apply collection_readItems].
Qed.

Lemma create_then_delete_restores_witness :
  let d := mkDisk (Some (ItemsJson [Item.mk 1 "A" "first"])) None None in
  let req := mkRequest "POST" "/items" (Some "application/json")
                       (BodyJson (JObj [("name", JStr "B")])) in
  let del := mkRequest "DELETE" "/items/2" None BodyEmpty in
  collection (snd (handleRequest del (snd (handleRequest req d))))
  = [Item.mk 1 "A" "first"].
Proof.
  intros d req del.
  destruct (create_then_delete_restores req del d "B") as (item & _ & _ & H).
  - by repeat split.
  - eexists. split; reflexivity.
  - reflexivity.
  - reflexivity.
  - change (safe_ids [Item.mk 1 "A" "first"]). repeat constructor. done.
  - rewrite H. reflexivity.
Defined.

(** The next id depends on the ids alone, not on their order. *)
Lemma maxId_foldr items a :
  fold_left (fun max item => if Item.id item >? max then Item.id item else max)
            items a
  = foldr Z.max a (Item.id <$> items).
Proof.
  revert a. induction items as [|i rest IH]; intros a; [done|].
  cbn [fold_left fmap list_fmap foldr]. rewrite IH.
  change (list_fmap Item Z Item.id rest) with (Item.id <$> rest).
  generalize (Item.id <$> rest). intros l. revert a.
  induction l as [|x l IHl]; intros a; cbn [foldr].
  - destruct (Z.gtb_spec (Item.id i) a); lia.
  - rewrite IHl. lia.
Qed.

Lemma foldr_max_Permutation (l1 l2 : list Z) a :
  l1 ≡ₚ l2 -> foldr Z.max a l1 = foldr Z.max a l2.
Proof.
  induction 1 as [|x l1 l2 _ IH|x y l|l1 l2 l3 _ IH1 _ IH2]; cbn [foldr].
  - done.
  - by rewrite IH.
  - lia.
  - by rewrite IH1.
Qed.

Lemma getNextId_Permutation items1 items2 :
  Item.id <$> items1 ≡ₚ Item.id <$> items2 ->
  getNextId items1 = getNextId items2.
Proof.
  intros Hp. unfold getNextId. rewrite !maxId_foldr.
  by rewrite (foldr_max_Permutation _ _ 0 Hp).
Qed.

(** Whatever the ids, a valid create followed by a DELETE of the id it
    assigned leaves the ids that were there, in some order: the DELETE
    removes the first item of that id, the created one or an older one. *)
Lemma create_then_delete_ids req del d b s :
  create_request req -> body req = BodyJson b ->
  prop b "name" = Some (JStr s) ->
  toUpperCase (method del) = "DELETE" ->
  match_id (pathname del) = Some (getNextId (collection d)) ->
  Item.id <$> collection (snd (handleRequest del (snd (handleRequest req d))))
  ≡ₚ Item.id <$> collection d.
Proof.
  intros Hreq Hb Hn Hm Hp.
  rewrite (create_valid req d b s Hreq Hb Hn). cbn [snd].
  rewrite (handle_DELETE _ _ _ Hm Hp).
  unfold writeItems. rewrite readItems_writeFileSync.
  set (new := Item.mk (getNextId (collection d)) s (body_description b)).
  destruct (find_by_id (Some (getNextId (collection d))) (collection d ++ [new]))
    as [[index old]|] eqn:Hf.
  - cbn [snd].
    fold (writeItems (delete index (collection d ++ [new]))
                     (writeFileSync (ItemsJson (collection d ++ [new]))
                                    (snd (readItems d)))).
    rewrite collection_writeItems, list_fmap_delete.
    apply find_by_id_Some in Hf as [Hl Hid].
    apply (Permutation_cons_inv (a := getNextId (collection d))).
    rewrite <- Hid at 1.
    rewrite <- (delete_Permutation (Item.id <$> collection d ++ [new]) index
                  (Item.id old)) by (by rewrite list_lookup_fmap, Hl).
    rewrite fmap_app. cbn. by rewrite Permutation_app_comm.
  - apply find_by_id_None in Hf. exfalso. apply Hf.
    rewrite fmap_app. apply elem_of_app. right. cbn. apply list_elem_of_here.
Qed.

(** X10: ids are reused: after a valid create and the DELETE of the item it
    made, the next valid create assigns the same id again. *)
Theorem id_reused_after_delete req del req' d name name' :
  create_request req -> has_string_name req name ->
  toUpperCase (method del) = "DELETE" ->
  match_id (pathname del) = Some (getNextId (collection d)) ->
  create_request req' -> has_string_name req' name' ->
  let d2 := snd (handleRequest del (snd (handleRequest req d))) in
  exists item item',
    fst (handleRequest req d) = sendJson 201 (item_json item)
    /\ fst (handleRequest req' d2) = sendJson 201 (item_json item')
    /\ Item.id item' = Item.id item.
Proof.
  intros Hreq (b & Hb & Hn) Hm Hp Hreq' (b' & Hb' & Hn') d2.
  pose proof (create_then_delete_ids req del d b name Hreq Hb Hn Hm Hp) as Hids.
  fold d2 in Hids.
  rewrite (create_valid req d b name Hreq Hb Hn).
  rewrite (create_valid req' d2 b' name' Hreq' Hb' Hn'). cbn [fst].
  eexists _, _. split_and!; [reflexivity..|]. cbn [Item.id].
  by apply getNextId_Permutation.
Qed.

Lemma id_reused_after_delete_witness :
  let d := mkDisk (Some (ItemsJson [Item.mk 1 "A" "first"])) None None in
  let req := mkRequest "POST" "/items" (Some "application/json")
                       (BodyJson (JObj [("name", JStr "B")])) in
  let del := mkRequest "DELETE" "/items/2" None BodyEmpty in
  exists item item',
    fst (handleRequest req d) = sendJson 201 (item_json item)
    /\ fst (handleRequest req (snd (handleRequest del (snd (handleRequest req d)))))
       = sendJson 201 (item_json item')
    /\ Item.id item' = Item.id item.
Proof.
  intros d req del.
  apply (id_reused_after_delete req del req d "B" "B").
  - by repeat split.
  - eexists. split; reflexivity.
  - reflexivity.
  - reflexivity.
  - by repeat split.
  - eexists. split; reflexivity.
Defined.

(** ** Refusals *)

(** X8: 415 is the answer exactly to the POST and PUT requests whose
    content type is not [application/json], whatever their path and body;
    such a request is refused before anything is loaded, so the disk stays
    as it is. *)
Theorem media_type_guard req d :
  (statusCode (fst (handleRequest req d)) = 415
   <-> (toUpperCase (method req) = "POST" \/ toUpperCase (method req) = "PUT")
       /\ content_type req <> Some "application/json")
  /\ (statusCode (fst (handleRequest req d)) = 415 ->
      handleRequest req d
      = (sendJson 415 (error_json "Content-Type must be application/json"), d)).
Proof.
  assert (statusCode (fst (handleRequest req d)) = 415 ->
          (toUpperCase (method req) = "POST" \/ toUpperCase (method req) = "PUT")
          /\ content_type req <> Some "application/json") as Hguard.
  { intros Hs. pose proof (handleRequest_cases req d) as H. cbn zeta in H.
    destruct H as [(Hm & Hc & _)|[(_ & Hs' & _)|[(_ & Hs' & _)
      |[(_ & Hs' & _)|(_ & i & o & _ & _ & Hr & _)]]]].
    - done.
    - destruct Hs' as [?|[?|[?|[? _]]]]; lia.
    - lia.
    - lia.
    - rewrite Hr in Hs. discriminate Hs. }
  split; [split; [exact Hguard|]|].
  - intros [Hm Hc]. by rewrite handle_unsupported_media.
  - intros [Hm Hc]%Hguard. by apply handle_unsupported_media.
Qed.

(** X11: the answer to a create request that declares JSON, by its body:
    400 "Invalid JSON" for text that does not parse; 201 with the new item
    when the body parses to an object whose [name] is a string, the
    description being the body's when it is a string and empty otherwise;
    400 with the fixed message in every other case: an empty body, [null],
    a number, a string, an array, an object without [name] or with a [name]
    that is not a string. *)
Theorem create_answers req d :
  create_request req ->
  fst (handleRequest req d)
  = match body req with
    | BodyNotJson _ => sendJson 400 (error_json "Invalid JSON")
    | BodyEmpty =>
        sendJson 400 (error_json "Invalid request body: `name` is required")
    | BodyJson (JObj members) =>
        match last_member "name" members None with
        | Some (JStr name) =>
            sendJson 201
              (item_json (Item.mk (getNextId (collection d)) name
                                  (body_description (JObj members))))
        | _ => sendJson 400 (error_json "Invalid request body: `name` is required")
        end
    | BodyJson _ =>
        sendJson 400 (error_json "Invalid request body: `name` is required")
    end.
Proof.
  intros (Hm & Hp & Hc). rewrite handle_CREATE by done.
  rewrite readItems_result. unfold parseRequestBody.
  destruct (body req) as [|raw|b]; [done..|].
  destruct b as [|bo|n|s|l|members];
    try (assert (forall v, prop v "name" = None -> invalid_body v = true) as Hnone
           by (intros v Hv; unfold invalid_body; rewrite Hv; apply orb_true_r);
         by rewrite Hnone).
  unfold invalid_body, body_name. cbn [truthy negb orb prop].
  by destruct (last_member "name" members None) as [[]|].
Qed.

Lemma create_answers_witness :
  fst (handleRequest
         (mkRequest "POST" "/items" (Some "application/json")
                    (BodyJson (JArr [JStr "name"])))
         (mkDisk None None None))
  = sendJson 400 (error_json "Invalid request body: `name` is required").
Proof.
  apply (create_answers
           (mkRequest "POST" "/items" (Some "application/json")
                      (BodyJson (JArr [JStr "name"])))
           (mkDisk None None None)).
  by repeat split.
Defined.

(** X12: to a request whose target parses as a URL the server answers with
    one of seven status codes; 204 is the answer to OPTIONS alone, 201 is
    given to POST alone, and 500 only to a GET of one of the two pages. *)
Theorem status_codes req d :
  let m := toUpperCase (method req) in
  let s := statusCode (fst (server req d)) in
  s ∈ [200; 201; 204; 400; 404; 415; 500]
  /\ (s = 204 <-> m = "OPTIONS")
  /\ (s = 201 -> m = "POST")
  /\ (s = 500 -> m = "GET" /\ (pathname req = "/" \/ pathname req = "/script.js")).
Proof.
  cbn zeta. unfold server.
  assert (forall s : Z,
            s ∈ [200; 201; 204; 400; 404; 415; 500] -> s <> 204 ->
            toUpperCase (method req) <> "OPTIONS" ->
            (s = 201 -> toUpperCase (method req) = "POST") ->
            (s = 500 -> toUpperCase (method req) = "GET"
                        /\ (pathname req = "/" \/ pathname req = "/script.js")) ->
            s ∈ [200; 201; 204; 400; 404; 415; 500]
            /\ (s = 204 <-> toUpperCase (method req) = "OPTIONS")
            /\ (s = 201 -> toUpperCase (method req) = "POST")
            /\ (s = 500 -> toUpperCase (method req) = "GET"
                           /\ (pathname req = "/" \/ pathname req = "/script.js")))
    as Hpack by (intros; split_and!; try done; split; done).
  destruct (String.eqb_spec (toUpperCase (method req)) "OPTIONS") as [E|E].
  { cbn. rewrite E. split_and!; try done.
    repeat first [apply list_elem_of_here | apply list_elem_of_further]. }
  pose proof (handleRequest_cases req d) as H. cbn zeta in H.
  destruct H as [(_ & _ & Hs & _)|[(_ & Hs & _)|[(Hm & Hs & _)
    |[(Hm & Hs & _)|(Hm & i & o & _ & _ & Hr & _)]]]].
  - rewrite Hs. apply Hpack; try done.
    repeat first [apply list_elem_of_here | apply list_elem_of_further].
  - destruct Hs as [Hs|[Hs|[Hs|(Hs & Hm & Hp)]]]; rewrite Hs;
      (apply Hpack; try done;
       repeat first [apply list_elem_of_here | apply list_elem_of_further]).
  - rewrite Hs. apply Hpack; try done.
    repeat first [apply list_elem_of_here | apply list_elem_of_further].
  - rewrite Hs. apply Hpack; try done.
    repeat first [apply list_elem_of_here | apply list_elem_of_further].
  - rewrite Hr. cbn. apply Hpack; try done.
    repeat first [apply list_elem_of_here | apply list_elem_of_further].
Qed.

(** ** Ids *)

(** X13: the next id is at least 1.  Where no id is above
    [MAX_SAFE_INTEGER] it is above every id of the collection, and where
    every id is below [MAX_SAFE_INTEGER] the next id, once the item that
    got it is appended, is one more: creates in a row get ids in a row.
    When the greatest id is 2^53 the next id is 2^53 again. *)
Theorem next_id_is_fresh items name description :
  1 <= getNextId items
  /\ (safe_ids items -> Forall (fun i => Item.id i < getNextId items) items)
  /\ (Forall (fun i => Item.id i < MAX_SAFE_INTEGER) items ->
      getNextId (items ++ [Item.mk (getNextId items) name description])
      = getNextId items + 1)
  /\ (max_id items = Some (2 ^ 53) -> getNextId items = 2 ^ 53).
Proof.
  split; [apply getNextId_positive|]. split; [apply getNextId_above|]. split.
  - intros Hbelow.
    assert (safe_ids items) as Hsafe.
    { eapply Forall_impl; [exact Hbelow|]. cbn. lia. }
    assert (getNextId items < 2 ^ 53) as Hnext.
    { rewrite (getNextId_safe _ Hsafe).
      destruct (max_id items) as [m|] eqn:E; [|done].
      apply max_id_Some in E as [(i & -> & Hin)%list_elem_of_fmap _].
      rewrite Forall_forall in Hbelow. specialize (Hbelow i Hin).
      unfold MAX_SAFE_INTEGER in Hbelow. lia. }
    pose proof (getNextId_positive items) as Hpos.
    pose proof (getNextId_above items Hsafe) as Habove.
    rewrite (getNextId_Permutation
               (items ++ [Item.mk (getNextId items) name description])
               (Item.mk (getNextId items) name description :: items))
      by (by rewrite !fmap_app, Permutation_app_comm).
    rewrite (getNextId_safe (_ :: items)).
    + cbn [max_id]. rewrite (getNextId_safe _ Hsafe) in *.
      destruct (max_id items) as [m|] eqn:E; cbn [Item.id]; [|done].
      f_equal. lia.
    + constructor; [|done]. cbn. unfold MAX_SAFE_INTEGER. lia.
  - intros E. rewrite getNextId_max, E. reflexivity.
Qed.

Lemma next_id_is_fresh_witness :
  getNextId [Item.mk 1 "A" ""; Item.mk 7 "B" ""] = 8
  /\ getNextId ([Item.mk 1 "A" ""; Item.mk 7 "B" ""] ++ [Item.mk 8 "C" ""]) = 9
  /\ getNextId [Item.mk (2 ^ 53) "D" ""] = 2 ^ 53.
Proof.
  destruct (next_id_is_fresh [Item.mk 1 "A" ""; Item.mk 7 "B" ""] "C" "")
    as (_ & _ & Hrow & _).
  destruct (next_id_is_fresh [Item.mk (2 ^ 53) "D" ""] "" "")
    as (_ & _ & _ & Hlarge).
  split; [reflexivity|]. split.
  - apply Hrow. repeat constructor; done.
  - apply Hlarge. reflexivity.
Defined.

(** X14: for a number of at most 2^53 in absolute value, the path
    [/items/] followed by the number as a template prints it reaches that
    number when it is not negative and matches no route with an id when it
    is negative.  No path reaches a negative id, and digits that denote an
    integer which is not a double reach the nearest double:
    [/items/9007199254740993] reaches 9007199254740992. *)
Theorem match_id_of_path :
  (forall n text,
      String_of_Number n = Some text ->
      match_id (String.append "/items/" text)
      = if 0 <=? n then Some n else None)
  /\ (forall p n, match_id p = Some n -> 0 <= n)
  /\ match_id "/items/9007199254740993" = Some 9007199254740992.
Proof.
  split; [|split; [apply match_id_nonneg|reflexivity]].
  intros n text Ht. destruct (Z.leb_spec 0 n) as [Hn|Hn].
  - by apply match_id_of_Number.
  - unfold String_of_Number in Ht.
    destruct (Z.abs n <=? 2 ^ 53); [|discriminate]. injection Ht as <-.
    destruct n as [|p|p]; [lia..|]. unfold match_id.
    change (strip_prefix "/items/"
              (String.append "/items/"
                 (NilZero.string_of_int (Z.to_int (Z.neg p)))))
      with (Some (String "-" (NilZero.string_of_uint (Pos.to_uint p)))).
    cbn [NilZero.uint_of_string NilEmpty.uint_of_string].
    by destruct (NilEmpty.uint_of_string (NilZero.string_of_uint (Pos.to_uint p))).
Qed.

Lemma match_id_of_path_witness :
  String_of_Number 42 = Some "42" /\ match_id "/items/42" = Some 42.
Proof.
  destruct match_id_of_path as (H & _ & _).
  split; [reflexivity|]. apply (H 42 "42"). reflexivity.
Defined.

(** X15: an item with a negative id is out of reach: whatever the request,
    it is still in the collection afterwards. *)
Theorem negative_ids_out_of_reach req d item :
  item ∈ collection d -> Item.id item < 0 ->
  item ∈ collection (snd (handleRequest req d)).
Proof.
  intros Hin Hneg.
  pose proof (handleRequest_cases req d) as H. cbn zeta in H.
  destruct H as [(_ & _ & _ & ->)|[(_ & _ & ->)|[(_ & _ & n & de & ->)
    |[(_ & _ & i & o & n & de & Hp & Hf & ->)|(_ & i & o & Hp & Hf & _ & ->)]]]];
    rewrite ?collection_writeItems, ?collection_readItems; try done.
  - apply elem_of_app. by left.
  - apply match_id_nonneg in Hp. apply find_by_id_Some in Hf as [Hl _].
    apply list_elem_of_lookup in Hin as [j Hj].
    apply list_elem_of_lookup. exists j.
    rewrite list_lookup_insert_ne; [done|].
    intros ->. rewrite Hl in Hj. injection Hj as ->. lia.
  - apply match_id_nonneg in Hp. apply find_by_id_Some in Hf as [Hl _].
    apply list_elem_of_lookup in Hin as [j Hj].
    apply list_elem_of_lookup.
    destruct (decide (j < i)%nat) as [Hlt|Hge].
    + exists j. by rewrite list_lookup_delete_lt.
    + assert (j <> i) as Hne.
      { intros ->. rewrite Hl in Hj. injection Hj as ->. lia. }
      exists (pred j). rewrite list_lookup_delete_ge by lia.
      by replace (S (pred j)) with j by lia.
Qed.

Lemma negative_ids_out_of_reach_witness :
  let d := mkDisk (Some (ItemsJson [Item.mk (-5) "ink" ""])) None None in
  Item.mk (-5) "ink" ""
  ∈ collection (snd (handleRequest (mkRequest "DELETE" "/items/-5" None BodyEmpty) d)).
Proof.
  intros d.
  apply (negative_ids_out_of_reach
           (mkRequest "DELETE" "/items/-5" None BodyEmpty) d).
  - change (Item.mk (-5) "ink" "" ∈ [Item.mk (-5) "ink" ""]).
    apply list_elem_of_here.
  - reflexivity.
Defined.

(** ** Stores built by the server *)

Lemma StronglySorted_delete (l : list Z) (i : nat) :
  StronglySorted Z.lt l -> StronglySorted Z.lt (delete i l).
Proof.
  intros Hs. revert i. induction Hs as [|x l Hs IH Hx]; intros [|i]; simpl.
  - constructor.
  - constructor.
  - done.
  - constructor; [apply IH|by apply Forall_delete].
Qed.

(** One request, on a collection whose ids are between 1 and a bound [B]
    that is at most [MAX_SAFE_INTEGER] and grow along it: afterwards the
    ids are between 1 and [B + 1] and still grow. *)
Lemma bounded_ids_step req d B :
  0 <= B <= MAX_SAFE_INTEGER ->
  Forall (fun i => 1 <= Item.id i <= B) (collection d) ->
  increasing_ids (collection d) ->
  Forall (fun i => 1 <= Item.id i <= B + 1) (collection (snd (handleRequest req d)))
  /\ increasing_ids (collection (snd (handleRequest req d))).
Proof.
  unfold increasing_ids. intros HB Hb Hs.
  assert (Forall (fun i => 1 <= Item.id i <= B + 1) (collection d)) as Hb'.
  { eapply Forall_impl; [exact Hb|]. cbn. lia. }
  assert (safe_ids (collection d)) as Hsafe.
  { eapply Forall_impl; [exact Hb|]. cbn. lia. }
  destruct (collection_after req d)
    as [->|[[_ (n & de & ->)]|[[_ (i & o & n & de & Hl & ->)]|[_ (i & ->)]]]].
  - done.
  - pose proof (getNextId_above _ Hsafe) as Habove.
    assert (1 <= getNextId (collection d) <= B + 1) as Hnext.
    { split; [apply getNextId_positive|]. rewrite (getNextId_safe _ Hsafe).
      destruct (max_id (collection d)) as [m|] eqn:E; [|lia].
      apply max_id_Some in E as [(it & -> & Hin)%list_elem_of_fmap _].
      rewrite Forall_forall in Hb. specialize (Hb it Hin). lia. }
    split.
    + apply Forall_app. split; [done|]. constructor; [exact Hnext|constructor].
    + rewrite fmap_app. apply StronglySorted_app. split_and!; [|done|].
      * intros x1 x2 (it & -> & Hin)%list_elem_of_fmap ->%list_elem_of_singleton.
        rewrite Forall_forall in Habove. by apply Habove.
      * cbn. repeat constructor.
  - split.
    + apply Forall_insert; [done|]. cbn [Item.id].
      rewrite Forall_forall in Hb'. apply Hb'. by eapply list_elem_of_lookup_2.
    + by rewrite (ids_after_update _ _ _ _ _ Hl).
  - split; [by apply Forall_delete|].
    rewrite list_fmap_delete. by apply StronglySorted_delete.
Qed.

Lemma increasing_ids_unique items : increasing_ids items -> unique_ids items.
Proof.
  unfold increasing_ids, unique_ids.
  induction 1 as [|x l _ IH Hx]; constructor; [|done].
  intros Hin. rewrite Forall_forall in Hx. specialize (Hx x Hin). lia.
Qed.

Lemma served_bounded_ids reqs d B :
  0 <= B -> B + Z.of_nat (length reqs) <= 2 ^ 53 ->
  Forall (fun i => 1 <= Item.id i <= B) (collection d) ->
  increasing_ids (collection d) ->
  Forall (fun i => 1 <= Item.id i <= B + Z.of_nat (length reqs))
         (collection (serve reqs d))
  /\ increasing_ids (collection (serve reqs d)).
Proof.
  revert d B. induction reqs as [|req rest IH]; intros d B HB Hlen Hb Hs.
  - cbn [serve length]. split; [|done].
    eapply Forall_impl; [exact Hb|]. cbn. lia.
  - cbn [serve]. rewrite length_cons, Nat2Z.inj_succ in *.
    replace (B + Z.succ (Z.of_nat (length rest)))
      with (B + 1 + Z.of_nat (length rest)) by lia.
    apply IH; [lia..| |].
    + destruct (server_collection req d) as [-> | ->].
      * eapply Forall_impl; [exact Hb|]. cbn. lia.
      * apply (bounded_ids_step req d B); [unfold MAX_SAFE_INTEGER; lia|done..].
    + destruct (server_collection req d) as [-> | ->]; [done|].
      apply (bounded_ids_step req d B); [unfold MAX_SAFE_INTEGER; lia|done..].
Qed.

(** X16: in a store that the server has built from an empty collection, by
    any sequence of at most 2^53 requests, the ids are at least 1, grow
    along the collection, and so are all different: the list that GET
    [/items] returns is sorted by id. *)
Theorem served_store_invariant reqs d :
  collection d = [] ->
  Z.of_nat (length reqs) <= 2 ^ 53 ->
  positive_ids (collection (serve reqs d))
  /\ increasing_ids (collection (serve reqs d))
  /\ unique_ids (collection (serve reqs d)).
Proof.
  intros Hempty Hlen.
  destruct (served_bounded_ids reqs d 0) as [Hb Hi]; [lia|lia| | |].
  - rewrite Hempty. constructor.
  - rewrite Hempty. constructor.
  - split_and!; [|done|by apply increasing_ids_unique].
    eapply Forall_impl; [exact Hb|]. cbn. lia.
Qed.

Lemma served_store_invariant_witness :
  let d := mkDisk (Some (NotJson "{oops")) None None in
  let reqs := [post (JObj [("name", JStr "A")]);
               post (JObj [("name", JStr "B")]);
               mkRequest "DELETE" "/items/1" None BodyEmpty;
               post (JObj [("name", JStr "C")])] in
  collection (serve reqs d) = [Item.mk 2 "B" ""; Item.mk 3 "C" ""]
  /\ increasing_ids (collection (serve reqs d)).
Proof.
  intros d reqs. split; [reflexivity|].
  apply (served_store_invariant reqs d); [reflexivity|].
  cbn. lia.
Defined.

(** ** The two pages *)

(** X17: a GET of [/] or [/script.js] is answered with the file, as
    [text/html] or [application/javascript], or with 500 and a JSON error
    when the file cannot be read; the collection plays no part in the
    answer, yet the store is loaded first, so that a missing or corrupt
    data file is reset by the request. *)
Theorem static_pages req d :
  toUpperCase (method req) = "GET" ->
  (pathname req = "/" ->
   handleRequest req d
   = (match index_html d with
      | Some data => mkResponse 200 (FileContent "text/html" data)
      | None => sendJson 500 (error_json "Failed to load index.html")
      end, snd (readItems d)))
  /\ (pathname req = "/script.js" ->
      handleRequest req d
      = (match script_js d with
         | Some data => mkResponse 200 (FileContent "application/javascript" data)
         | None => sendJson 500 (error_json "Failed to load script.js")
         end, snd (readItems d))).
Proof.
  intros Hm. unfold handleRequest. rewrite Hm, readItems_result.
  split; intros ->; reflexivity.
Qed.

Lemma static_pages_witness :
  handleRequest (mkRequest "GET" "/" None BodyEmpty)
                (mkDisk (Some (NotJson "{oops")) (Some "<html></html>") None)
  = (mkResponse 200 (FileContent "text/html" "<html></html>"),
     mkDisk (Some (ItemsJson [])) (Some "<html></html>") None).
Proof.
  apply (static_pages (mkRequest "GET" "/" None BodyEmpty)
           (mkDisk (Some (NotJson "{oops")) (Some "<html></html>") None));
    reflexivity.
Defined.

(** ** The page and the server together *)

(** X18: [createItem] sends a request exactly when the trimmed name is not
    empty; the server answers it 201 and stores an item with the trimmed
    name and description under the next id, and the reload of the table that
    follows lists the old items and then the new one. *)
Theorem createItem_accepted trim nameInput descriptionInput d :
  let created := Item.mk (getNextId (collection d)) (trim nameInput)
                         (trim descriptionInput) in
  (createItem_fetch trim nameInput descriptionInput = None
   <-> trim nameInput = "")
  /\ forall req,
       createItem_fetch trim nameInput descriptionInput = Some req ->
       Item.name created <> ""
       /\ fst (server req d) = sendJson 201 (item_json created)
       /\ collection (snd (server req d)) = collection d ++ [created]
       /\ fst (server fetchItems_fetch (snd (server req d)))
          = sendJson 200 (items_json (collection d ++ [created])).
Proof.
  cbn zeta. unfold createItem_fetch.
  destruct (String.eqb_spec (trim nameInput) "") as [E|E].
  { split; [done|]. intros req [=]. }
  split; [split; [intros [=]|done]|].
  intros req [= <-]. split; [done|].
  set (req := mkRequest "POST" (String.append apiBase "/items")
                        (Some "application/json") _).
  assert (server req d = handleRequest req d) as -> by reflexivity.
  assert (handleRequest req d
          = (sendJson 201
               (item_json (Item.mk (getNextId (collection d)) (trim nameInput)
                                   (trim descriptionInput))),
             writeItems
               (collection d
                ++ [Item.mk (getNextId (collection d)) (trim nameInput)
                            (trim descriptionInput)])
               (snd (readItems d)))) as ->.
  { apply (create_valid req d
             (JObj [("name", JStr (trim nameInput));
                    ("description", JStr (trim descriptionInput))])
             (trim nameInput)); [by repeat split|reflexivity..]. }
  cbn [fst snd]. rewrite collection_writeItems. split_and!; [done..|].
  assert (forall d', server fetchItems_fetch d'
                     = (sendJson 200 (items_json (fst (readItems d'))),
                        snd (readItems d'))) as ->.
  { intros d'. by apply handle_LIST. }
  unfold writeItems. by rewrite readItems_writeFileSync.
Qed.

Lemma createItem_accepted_witness :
  let d := mkDisk (Some (ItemsJson [Item.mk 1 "A" "first"])) None None in
  exists req,
    createItem_fetch (fun s => s) "B" "" = Some req
    /\ fst (server req d) = sendJson 201 (item_json (Item.mk 2 "B" "")).
Proof.
  intros d.
  destruct (createItem_accepted (fun s => s) "B" "" d) as [_ H].
  eexists. split; [reflexivity|].
  destruct (H _ eq_refl) as (_ & Hr & _). exact Hr.
Defined.



(** X20: [deleteItem], once confirmed, for the row of an item of the
    collection whose id is at most 2^53 in absolute value: when the id is
    not negative and the ids are all different the server answers 200 and
    no item has that id afterwards; when the id is negative its path
    matches no route, the server answers 404 "Not found" and the collection
    stays as it is.  Without the confirmation no request is sent. *)
Theorem deleteItem_outcome n text d :
  String_of_Number n = Some text ->
  n ∈ Item.id <$> collection d -> unique_ids (collection d) ->
  deleteItem_fetch false text = None
  /\ exists req,
       deleteItem_fetch true text = Some req
       /\ if 0 <=? n
          then statusCode (fst (server req d)) = 200
               /\ n ∉ Item.id <$> collection (snd (server req d))
          else fst (server req d) = sendJson 404 (error_json "Not found")
               /\ collection (snd (server req d)) = collection d.
Proof.
  intros Ht Hin Hu. split; [reflexivity|]. eexists. split; [reflexivity|].
  set (req := mkRequest "DELETE" _ None BodyEmpty).
  assert (server req d = handleRequest req d) as -> by reflexivity.
  destruct (Z.leb_spec 0 n) as [Hn|Hn].
  - assert (match_id (pathname req) = Some n) as Hp
      by (by apply match_id_of_Number).
    destruct (delete_present req d n eq_refl Hp Hu Hin) as (item & _ & _ & ->).
    cbn [fst snd]. split; [done|].
    fold (writeItems (filter (fun i => Item.id i <> n) (collection d)) d).
    rewrite collection_writeItems.
    intros (i & -> & [Hne _]%list_elem_of_filter)%list_elem_of_fmap. by apply Hne.
  - assert (match_id (pathname req) = None) as Hp.
    { unfold String_of_Number in Ht.
      destruct (Z.abs n <=? 2 ^ 53); [|discriminate]. injection Ht as <-.
      destruct n as [|p|p]; [lia..|]. unfold match_id.
      change (strip_prefix "/items/" (pathname req))
        with (Some (String "-" (NilZero.string_of_uint (Pos.to_uint p)))).
      cbn [NilZero.uint_of_string NilEmpty.uint_of_string].
      by destruct (NilEmpty.uint_of_string
                     (NilZero.string_of_uint (Pos.to_uint p))). }
    unfold handleRequest. rewrite Hp, readItems_result. cbn.
    split; [done|]. fold (writeItems (collection d) d).
    apply collection_writeItems.
Qed.

Lemma deleteItem_outcome_witness :
  let d := mkDisk (Some (ItemsJson [Item.mk 1 "A" "first"])) None None in
  exists req,
    deleteItem_fetch true "1" = Some req
    /\ statusCode (fst (server req d)) = 200.
Proof.
  intros d.
  destruct (deleteItem_outcome 1 "1" d) as (_ & req & Hreq & Hr & _).
  - reflexivity.
  - change (1 ∈ [1]). apply list_elem_of_here.
  - change (NoDup [1]). apply NoDup_singleton.
  - exists req. split; [exact Hreq|exact Hr].
Defined.
